(** * go-expanse: node service orchestrator, event vocabulary, thin RPC client

    A shallow embedding of

      - [core/events.go]  : the event types posted on the event multiplexer,
      - [rpc/xeth.go]     : the native JSON-RPC client [Xeth],
      - [eth/backend.go]  : the [Ethereum] full-node service
                            ([New], [Etherbase], [StartMining], [Stop], ...),

    followed by the properties established about them.  Go packages become
    modules of the same name, structs become records, pointer receivers
    become explicit state passing, and calls into packages that are not part
    of these three files are recorded in a call log. *)

From Stdlib Require Import ZArith List String Ascii Bool Lia.
From Stdlib.Strings Require Import Byte.
From Stdlib Require Import DecimalString.
Import ListNotations.

Local Open Scope Z_scope.
Local Open Scope string_scope.

(* ================================================================== *)
(** ** Go's machine integers *)

Module GoInt.

(** [int] on a 64-bit target: two's complement, wrap-around on overflow. *)
Definition int_min : Z := - 2 ^ 63.
Definition int_max : Z := 2 ^ 63 - 1.

Definition in_int (z : Z) : Prop := int_min <= z <= int_max.

Definition wrap (z : Z) : Z := (z + 2 ^ 63) mod 2 ^ 64 - 2 ^ 63.

(** [a - b] on [int]. *)
Definition sub (a b : Z) : Z := wrap (a - b).

(** [a / b] on [int]: truncated towards zero. *)
Definition quo (a b : Z) : Z := wrap (Z.quot a b).

(** [uint32] addition, as performed by [atomic.AddUint32]. *)
Definition add_uint32 (a b : Z) : Z := (a + b) mod 2 ^ 32.

(** [%d] of [fmt]. *)
Definition fmt_d (z : Z) : string := NilZero.string_of_int (Z.to_int z).

End GoInt.

(* ================================================================== *)
(** ** Package [common] *)

Module common.

Definition AddressLength : nat := 20.

(** [type Address [AddressLength]byte] *)
Definition Address : Type := list byte.

(** [common.Address{}], the zero value. *)
Definition zero_Address : Address := repeat x00 AddressLength.

Definition Address_eq_dec (a b : Address) : {a = b} + {a <> b} :=
  list_eq_dec Byte.byte_eq_dec a b.

(** [a != b] on addresses (array comparison). *)
Definition Address_neqb (a b : Address) : bool :=
  if Address_eq_dec a b then false else true.

(** [type Hash [32]byte] *)
Definition Hash : Type := list byte.

Definition Hash_eqb (a b : Hash) : bool :=
  if list_eq_dec Byte.byte_eq_dec a b then true else false.

End common.

(* ================================================================== *)
(** ** Go's [error] values met in these files *)

Module errors.

(** The dynamic types of the [error] values these files create or test
    for: the string errors of [fmt.Errorf], and
    [params.ConfigCompatError] (by pointer), which carries the block number the chain
    must be rewound to.  [text] is what its [Error()] method renders. *)
Inductive error : Type :=
| errorString (s : string)
| ConfigCompatError (text : string) (RewindTo : Z).

(** [err.Error()], which is what [%v] prints for an error. *)
Definition Error (e : error) : string :=
  match e with
  | errorString s => s
  | ConfigCompatError text _ => text
  end.

(** The type assertion of a possibly nil error to a pointer to
    [params.ConfigCompatError]: the rewind target when it succeeds. *)
Definition asConfigCompatError (err : option error) : option Z :=
  match err with
  | Some (ConfigCompatError _ r) => Some r
  | _ => None
  end.

End errors.
Export errors.

(* ================================================================== *)
(** ** Package [core]: [events.go] *)

Module core.

(** [core.Genesis] (genesis.go is outside these files): the genesis
    specification is only handed on to [SetupGenesisBlock], so a value
    stands for the object the pointer designates. *)
Definition Genesis : Type := N.

Section Events.

(** The payload types come from packages [types], [state], [common] and
    [math/big]; the events only carry them. *)
Variables Transaction Block Logs BigInt : Type.

(** One constructor per struct type declared in [events.go], in the
    order of the file, with the fields of the struct. *)
Inductive Event : Type :=
| TxPreEvent (Tx : Transaction)
| TxPostEvent (Tx : Transaction)
| NewBlockEvent (Blk : Block)
| NewMinedBlockEvent (Blk : Block)
| ChainSplitEvent (Blk : Block) (Lgs : Logs)
| ChainEvent (Blk : Block) (Hash : common.Hash) (Lgs : Logs)
| ChainSideEvent (Blk : Block) (Lgs : Logs)
| PendingBlockEvent (Blk : Block) (Lgs : Logs)
| ChainUncleEvent (Blk : Block)
| ChainHeadEvent (Blk : Block)
| GasPriceChanged (Price : BigInt)
| StartMining
| TopMining.

(** A field of an event together with its value. *)
Inductive Field : Type :=
| FTx (tx : Transaction)
| FBlock (block : Block)
| FHash (hash : common.Hash)
| FLogs (logs : Logs)
| FPrice (price : BigInt).

(** The fields of an event, in declaration order. *)
Definition payload (e : Event) : list Field :=
  match e with
  | TxPreEvent tx => [FTx tx]
  | TxPostEvent tx => [FTx tx]
  | NewBlockEvent b => [FBlock b]
  | NewMinedBlockEvent b => [FBlock b]
  | ChainSplitEvent b l => [FBlock b; FLogs l]
  | ChainEvent b h l => [FBlock b; FHash h; FLogs l]
  | ChainSideEvent b l => [FBlock b; FLogs l]
  | PendingBlockEvent b l => [FBlock b; FLogs l]
  | ChainUncleEvent b => [FBlock b]
  | ChainHeadEvent b => [FBlock b]
  | GasPriceChanged p => [FPrice p]
  | StartMining => []
  | TopMining => []
  end.

(** The event vocabulary as the specification lists it: twelve kinds
    with their payloads. *)
Inductive SpecEvent : Type :=
| Spec_TxPending (tx : Transaction)
| Spec_TxProcessed (tx : Transaction)
| Spec_NewBlock (block : Block)
| Spec_MinedBlock (block : Block)
| Spec_ChainHead (block : Block)
| Spec_ChainSplit (block : Block) (logs : Logs)
| Spec_ChainSideBlock (block : Block) (logs : Logs)
| Spec_PendingState (block : Block) (logs : Logs)
| Spec_UncleBlock (block : Block)
| Spec_GasPriceChanged (price : BigInt)
| Spec_MiningStarted
| Spec_MiningStopped.

Definition spec_payload (s : SpecEvent) : list Field :=
  match s with
  | Spec_TxPending tx => [FTx tx]
  | Spec_TxProcessed tx => [FTx tx]
  | Spec_NewBlock b => [FBlock b]
  | Spec_MinedBlock b => [FBlock b]
  | Spec_ChainHead b => [FBlock b]
  | Spec_ChainSplit b l => [FBlock b; FLogs l]
  | Spec_ChainSideBlock b l => [FBlock b; FLogs l]
  | Spec_PendingState b l => [FBlock b; FLogs l]
  | Spec_UncleBlock b => [FBlock b]
  | Spec_GasPriceChanged p => [FPrice p]
  | Spec_MiningStarted => []
  | Spec_MiningStopped => []
  end.

(** The struct type of [events.go] that realises each listed kind. *)
Definition realises (s : SpecEvent) : Event :=
  match s with
  | Spec_TxPending tx => TxPreEvent tx
  | Spec_TxProcessed tx => TxPostEvent tx
  | Spec_NewBlock b => NewBlockEvent b
  | Spec_MinedBlock b => NewMinedBlockEvent b
  | Spec_ChainHead b => ChainHeadEvent b
  | Spec_ChainSplit b l => ChainSplitEvent b l
  | Spec_ChainSideBlock b l => ChainSideEvent b l
  | Spec_PendingState b l => PendingBlockEvent b l
  | Spec_UncleBlock b => ChainUncleEvent b
  | Spec_GasPriceChanged p => GasPriceChanged p
  | Spec_MiningStarted => StartMining
  | Spec_MiningStopped => TopMining
  end.

End Events.

Arguments TxPreEvent {Transaction Block Logs BigInt} Tx.
Arguments TxPostEvent {Transaction Block Logs BigInt} Tx.
Arguments NewBlockEvent {Transaction Block Logs BigInt} Blk.
Arguments NewMinedBlockEvent {Transaction Block Logs BigInt} Blk.
Arguments ChainSplitEvent {Transaction Block Logs BigInt} Blk Lgs.
Arguments ChainEvent {Transaction Block Logs BigInt} Blk Hash Lgs.
Arguments ChainSideEvent {Transaction Block Logs BigInt} Blk Lgs.
Arguments PendingBlockEvent {Transaction Block Logs BigInt} Blk Lgs.
Arguments ChainUncleEvent {Transaction Block Logs BigInt} Blk.
Arguments ChainHeadEvent {Transaction Block Logs BigInt} Blk.
Arguments GasPriceChanged {Transaction Block Logs BigInt} Price.
Arguments StartMining {Transaction Block Logs BigInt}.
Arguments TopMining {Transaction Block Logs BigInt}.
Arguments FTx {Transaction Block Logs BigInt} tx.
Arguments FBlock {Transaction Block Logs BigInt} block.
Arguments FHash {Transaction Block Logs BigInt} hash.
Arguments FLogs {Transaction Block Logs BigInt} logs.
Arguments FPrice {Transaction Block Logs BigInt} price.
Arguments payload {Transaction Block Logs BigInt} e.
Arguments spec_payload {Transaction Block Logs BigInt} s.
Arguments realises {Transaction Block Logs BigInt} s.

End core.

(* ================================================================== *)
(** ** Package [rpc]: [xeth.go] *)

Module rpc.

(** A dynamically typed Go value ([interface{}]), as far as [Call] can
    tell values apart: by dynamic type.  [Other] covers every remaining
    dynamic type, under the name [reflect] prints for it. *)
#[warnings="-register-all"] Inductive Value : Type :=
| Nil
| Bool (b : bool)
| Float64 (digits : string)
| String (s : string)
| Slice (elems : list Value)
| Map (entries : list (string * Value))
| Other (type_name : string).

(** [fmt]'s [%v] of [reflect.TypeOf v]. *)
Definition TypeOf (v : Value) : string :=
  match v with
  | Nil => "<nil>"
  | Bool _ => "bool"
  | Float64 _ => "float64"
  | String _ => "string"
  | Slice _ => "[]interface {}"
  | Map _ => "map[string]interface {}"
  | Other t => t
  end.

(** [shared.Request] *)
Record Request : Type := mkRequest {
  Id : Z;
  Jsonrpc : string;
  Method : string;
  Params : list byte
}.

(** [comms.ExpanseClient], the transport: the two methods [Call] uses.
    A client is a value of the carrier; each method returns the client
    it leaves behind. *)
Class ExpanseClient (C : Type) : Type := {
  Send : C -> Request -> C * option error;
  Recv : C -> C * (Value * option error)
}.

Section Xeth.

Context {C : Type} `{ExpanseClient C}.

(** [encoding/json.Marshal] on the parameter slice. *)
Variable json_Marshal : list Value -> list byte * option error.

Record Xeth : Type := mkXeth {
  client : C;
  reqId : Z
}.

Definition NewXeth (client : C) : Xeth :=
  {| client := client; reqId := 0 |}.

Definition invalid_response_type (res : Value) : error :=
  errorString ("Invalid response type: have " ++ TypeOf res
               ++ ", want " ++ TypeOf (Map [])).

(** [func Call], on a pointer receiver:
    the receiver after the call, and the two results. *)
Definition Call (self : Xeth) (method : string) (params : list Value)
  : Xeth * (option (list (string * Value)) * option error) :=
  let (data, err) := json_Marshal params in
  match err with
  | Some e => (self, (None, Some e))
  | None =>
      let id := GoInt.add_uint32 (reqId self) 1 in
      let req := {| Id := id; Jsonrpc := "2.0";
                    Method := method; Params := data |} in
      let (c1, err) := Send (client self) req in
      match err with
      | Some e => ({| client := c1; reqId := id |}, (None, Some e))
      | None =>
          let '(c2, (res, err)) := Recv c1 in
          let self' := {| client := c2; reqId := id |} in
          match err with
          | Some e => (self', (None, Some e))
          | None =>
              match res with
              | Map value => (self', (Some value, None))
              | _ => (self', (None, Some (invalid_response_type res)))
              end
          end
      end
  end.

(** The request [Call] assembles once the parameters are marshalled. *)
Definition request_of (self : Xeth) (method : string) (data : list byte)
  : Request :=
  {| Id := GoInt.add_uint32 (reqId self) 1; Jsonrpc := "2.0";
     Method := method; Params := data |}.

End Xeth.

Arguments Xeth C : clear implicits.
Arguments mkXeth {C} client reqId.

End rpc.

(* ================================================================== *)
(** ** Collaborating packages, as [backend.go] sees them *)

Module params.

(** The chain configuration is built by [core.SetupGenesisBlock] and handed
    on; a value stands for the object the pointer designates. *)
Definition ChainConfig : Type := N.

End params.

Module accounts.

(** [accounts.Account] *)
Record Account : Type := mkAccount {
  Address : common.Address;
  URL : string
}.

(** [accounts.Wallet], through its method [Accounts()]. *)
Record Wallet : Type := mkWallet {
  Accounts : list Account
}.

(** [accounts.Manager], through its method [Wallets()]. *)
Record Manager : Type := mkManager {
  Wallets : list Wallet
}.

End accounts.

Module node.

(** [node.ServiceContext]; its [OpenDatabase] method is among the
    collaborators below, its [EventMux] is a handle without state here. *)
Record ServiceContext : Type := mkServiceContext {
  AccountManager : accounts.Manager
}.

End node.

Module pow.

(** The engines [CreatePoW] chooses between. *)
Inductive PoW : Type :=
| FakePow
| TestEthash
| SharedEthash
| FullEthash (cacheDir : string).

End pow.

(* ================================================================== *)
(** ** Package [eth]: [backend.go] *)

Module eth.

Module Config.

(** [type Config struct]: the options [New] reads.  The Ethash cache and
    dataset sizes, [DocRoot], [LightMode] and the gas-price-oracle options
    are forwarded unread and are left out. *)
Record t : Type := mk {
  Genesis : option core.Genesis;
  NetworkId : Z;
  FastSync : bool;
  LightServ : Z;
  LightPeers : Z;
  MaxPeers : Z;
  SkipBcVersionCheck : bool;
  DatabaseCache : Z;
  DatabaseHandles : Z;
  PowFake : bool;
  PowTest : bool;
  PowShared : bool;
  ExtraData : list byte;
  EthashCacheDir : string;
  Etherbase : common.Address;
  GasPrice : Z;
  MinerThreads : Z;
  SolcPath : string;
  EnablePreimageRecording : bool
}.

End Config.

(** The chain database, as far as [New] reads and writes it through
    package [core]: the stored schema version (0 while none was written)
    and the chain configurations stored under a genesis hash. *)
Record Database : Type := mkDatabase {
  stored_version : Z;
  stored_config : list (common.Hash * params.ChainConfig)
}.

(** [core.BlockChain], as far as [New] acts on it: the height of the
    current head. *)
Record BlockChain : Type := mkBlockChain {
  currentBlock : Z
}.

(** [type LesServer interface]: a handle; its methods are calls in the
    log. *)
Inductive LesServer : Type := lesServerImpl.

(** A channel that is only ever closed and received from. *)
Inductive Chan : Type := chan_open | chan_closed.

(** Calls that leave [backend.go], in the spelling of the call site.
    Logging is left out, but for the [log.Error] of [StartMining], its only
    call on the error path. *)
Inductive Call : Type :=
| call_OpenDatabase (name : string) (cache handles : Z)
| call_upgradeSequentialKeys
| call_SetupGenesisBlock (genesis : option core.Genesis)
| call_addMipmapBloomBins
| call_WriteBlockChainVersion (version : Z)
| call_NewBlockChain (chainConfig : params.ChainConfig)
| call_blockchain_SetHead (head : Z)
| call_WriteChainConfig (hash : common.Hash) (cfg : params.ChainConfig)
| call_NewTxPool
| call_NewProtocolManager (fastSync : bool) (networkId maxPeers : Z)
| call_miner_New
| call_miner_SetGasPrice (price : Z)
| call_miner_SetExtra (extra : list byte)
| call_NewGasPriceOracle
| call_miner_SetEtherbase (etherbase : common.Address)
| call_NewPublicNetAPI (networkVersion : Z)
| call_protocolManager_Start
| call_lesServer_Start
| call_log_Error (msg : string)
| call_go_miner_Start (eb : common.Address) (threads : Z)
| call_stopDbUpgrade
| call_blockchain_Stop
| call_protocolManager_Stop
| call_lesServer_Stop
| call_txPool_Stop
| call_miner_Stop
| call_eventMux_Stop
| call_chainDb_Close
| call_close_shutdownChan.

(** A log entry: the call, and the error the callee ran into.  For a call
    with an [error] result that is the result; a method without one
    ([Stop()], [Close()]) keeps its failure to itself, and the entry is the
    only trace of it. *)
Definition Entry : Type := (Call * option error)%type.

(** What lies outside the [Ethereum] object: the database on disk and the
    calls made so far, oldest first. *)
Record World : Type := mkWorld {
  chaindata : Database;
  calls : list Entry
}.

(** Code of other packages that [backend.go] calls and whose outcome it
    branches on, with the constant [core.BlockChainVersion]. *)
Record Collaborators : Type := mkCollaborators {
  BlockChainVersion : Z;
  OpenDatabase : string -> Z -> Z -> option error;
  upgradeSequentialKeys : Database -> bool;
  SetupGenesisBlock :
    Database -> option core.Genesis ->
    params.ChainConfig * common.Hash * option error;
  addMipmapBloomBins : Database -> option error;
  NewBlockChain : Database -> params.ChainConfig -> BlockChain * option error;
  NewProtocolManager :
    params.ChainConfig -> bool -> Z -> Z -> option error;
  teardown_error : Call -> option error
}.

(** [type Ethereum struct].  [txPool], [protocolManager], [miner],
    [eventMux] and [ApiBackend] are handles whose methods appear as calls
    in the log; [stopDbUpgrade] records whether the function value is
    non-nil. *)
Record Ethereum : Type := mkEthereum {
  chainConfig : params.ChainConfig;
  shutdownChan : Chan;
  stopDbUpgrade : bool;
  blockchain : BlockChain;
  lesServer : option LesServer;
  pow : pow.PoW;
  accountManager : accounts.Manager;
  MinerThreads : Z;
  etherbase : common.Address;
  solcPath : string;
  netVersionId : Z
}.

(** *** State and early return *)

Inductive result (A : Type) : Type :=
| ok (a : A)
| fail (err : error).
Arguments ok {A} a.
Arguments fail {A} err.

Definition M (A : Type) : Type := World -> result A * World.

Definition ret {A} (a : A) : M A := fun w => (ok a, w).

Definition raise {A} (e : error) : M A := fun w => (fail e, w).

Definition bind {A B} (m : M A) (k : A -> M B) : M B :=
  fun w =>
    match m w with
    | (ok a, w') => k a w'
    | (fail e, w') => (fail e, w')
    end.

Notation "x <- m ;; k" := (bind m (fun x => k))
  (at level 61, m at next level, right associativity).
Notation "m ;;; k" := (bind m (fun _ => k))
  (at level 61, right associativity).

(** Append an entry to the call log. *)
Definition record (w : World) (c : Call) (err : option error) : World :=
  {| chaindata := chaindata w; calls := calls w ++ [(c, err)] |}.

(** A call without an [error] result. *)
Definition invoke (c : Call) : M unit := fun w => (ok tt, record w c None).

(** A call whose [error] result aborts the caller when it is non-nil. *)
Definition try (c : Call) (err : option error) : M unit :=
  fun w =>
    match err with
    | None => (ok tt, record w c None)
    | Some e => (fail e, record w c (Some e))
    end.

Definition get_db : M Database := fun w => (ok (chaindata w), w).

(** *** Accessors of package [core] on the database and the chain *)

(** Modelled from the spec: [core.GetBlockChainVersion] (not in these
    files) reads the stored schema version, which is 0 on a first run. *)
Definition GetBlockChainVersion (db : Database) : Z := stored_version db.

(** Modelled from the spec: [core.WriteBlockChainVersion] (not in these
    files) stamps the given version into the database. *)
Definition WriteBlockChainVersion (vsn : Z) : M unit :=
  fun w =>
    (ok tt,
     record {| chaindata := {| stored_version := vsn;
                               stored_config := stored_config (chaindata w) |};
               calls := calls w |}
            (call_WriteBlockChainVersion vsn) None).

(** Modelled from the spec: [core.WriteChainConfig] (not in these files)
    persists the configuration under the genesis hash. *)
Definition WriteChainConfig (hash : common.Hash) (cfg : params.ChainConfig)
  : M unit :=
  fun w =>
    (ok tt,
     record {| chaindata := {| stored_version := stored_version (chaindata w);
                               stored_config :=
                                 (hash, cfg) :: stored_config (chaindata w) |};
               calls := calls w |}
            (call_WriteChainConfig hash cfg) None).

(** The configuration stored under a genesis hash: the latest write. *)
Fixpoint GetChainConfig (l : list (common.Hash * params.ChainConfig))
  (hash : common.Hash) : option params.ChainConfig :=
  match l with
  | [] => None
  | (h, c) :: rest =>
      if common.Hash_eqb h hash then Some c else GetChainConfig rest hash
  end.

(** Modelled from the spec: [BlockChain.SetHead] (core/blockchain.go, not
    in these files) rolls the chain back to the given height; a chain that
    is already at or below it keeps its head. *)
Definition SetHead (bc : BlockChain) (head : Z) : BlockChain :=
  {| currentBlock := Z.min (currentBlock bc) head |}.

(** *** [backend.go] *)

(** [func AddLesServer], on a pointer receiver. *)
Definition AddLesServer (s : Ethereum) (ls : LesServer) : Ethereum :=
  {| chainConfig := chainConfig s; shutdownChan := shutdownChan s;
     stopDbUpgrade := stopDbUpgrade s; blockchain := blockchain s;
     lesServer := Some ls; pow := pow s;
     accountManager := accountManager s; MinerThreads := MinerThreads s;
     etherbase := etherbase s; solcPath := solcPath s;
     netVersionId := netVersionId s |}.

(** [func CreateDB]: the error of [ctx.OpenDatabase]. *)
Definition CreateDB (X : Collaborators) (ctx : node.ServiceContext)
  (config : Config.t) (name : string) : M unit :=
  let cache := Config.DatabaseCache config in
  let handles := Config.DatabaseHandles config in
  try (call_OpenDatabase name cache handles) (OpenDatabase X name cache handles).

(** [func CreatePoW] *)
Definition CreatePoW (ctx : node.ServiceContext) (config : Config.t)
  : pow.PoW :=
  if Config.PowFake config then pow.FakePow
  else if Config.PowTest config then pow.TestEthash
  else if Config.PowShared config then pow.SharedEthash
  else pow.FullEthash (Config.EthashCacheDir config).

(** The peer budget [New] hands to [NewProtocolManager]: the local
    variable [maxPeers] of [New] at the call. *)
Definition maxPeers (config : Config.t) : Z :=
  let maxPeers := Config.MaxPeers config in
  if (0 <? Config.LightServ config)%Z then
    let halfPeers := GoInt.quo maxPeers 2 in
    let maxPeers := GoInt.sub maxPeers (Config.LightPeers config) in
    if (maxPeers <? halfPeers)%Z then halfPeers else maxPeers
  else maxPeers.

(** The error of the schema-version check. *)
Definition version_mismatch (bcVersion expected : Z) : error :=
  errorString ("Blockchain DB version mismatch (" ++ GoInt.fmt_d bcVersion
               ++ " / " ++ GoInt.fmt_d expected
               ++ "). Run gexp upgradedb." ++ String (ascii_of_nat 10) "").

Arguments version_mismatch : simpl never.

(** The schema-version check of [New]. *)
Definition checkBcVersion (X : Collaborators) (config : Config.t) : M unit :=
  if negb (Config.SkipBcVersionCheck config) then
    chainDb <- get_db ;;
    let bcVersion := GetBlockChainVersion chainDb in
    if negb (bcVersion =? BlockChainVersion X)%Z && negb (bcVersion =? 0)%Z then
      raise (version_mismatch bcVersion (BlockChainVersion X))
    else
      WriteBlockChainVersion (BlockChainVersion X)
  else ret tt.

(** The rewind of [New] after an incompatible configuration upgrade. *)
Definition rewind (genesisErr : option error) (genesisHash : common.Hash)
  (chainConfig : params.ChainConfig) (bc : BlockChain) : M BlockChain :=
  match asConfigCompatError genesisErr with
  | Some RewindTo =>
      invoke (call_blockchain_SetHead RewindTo) ;;;
      WriteChainConfig genesisHash chainConfig ;;;
      ret (SetHead bc RewindTo)
  | None => ret bc
  end.

(** [func New]: [ok eth] for the results [eth, nil], [fail err] for
    [nil, err]. *)
Definition New (X : Collaborators) (ctx : node.ServiceContext)
  (config : Config.t) : M Ethereum :=
  CreateDB X ctx config "chaindata" ;;;
  chainDb <- get_db ;;
  let stopDbUpgrade := upgradeSequentialKeys X chainDb in
  invoke call_upgradeSequentialKeys ;;;
  let '(chainConfig, genesisHash, genesisErr) :=
    SetupGenesisBlock X chainDb (Config.Genesis config) in
  (fun w =>
     (ok tt, record w (call_SetupGenesisBlock (Config.Genesis config))
                    genesisErr)) ;;;
  match genesisErr, asConfigCompatError genesisErr with
  | Some e, None => raise e
  | _, _ => ret tt
  end ;;;
  try call_addMipmapBloomBins (addMipmapBloomBins X chainDb) ;;;
  checkBcVersion X config ;;;
  chainDb <- get_db ;;
  let (bc, err) := NewBlockChain X chainDb chainConfig in
  try (call_NewBlockChain chainConfig) err ;;;
  bc <- rewind genesisErr genesisHash chainConfig bc ;;
  invoke call_NewTxPool ;;;
  let maxPeers := maxPeers config in
  try (call_NewProtocolManager (Config.FastSync config)
         (Config.NetworkId config) maxPeers)
      (NewProtocolManager X chainConfig (Config.FastSync config)
         (Config.NetworkId config) maxPeers) ;;;
  invoke call_miner_New ;;;
  invoke (call_miner_SetGasPrice (Config.GasPrice config)) ;;;
  invoke (call_miner_SetExtra (Config.ExtraData config)) ;;;
  invoke call_NewGasPriceOracle ;;;
  ret {| chainConfig := chainConfig;
         shutdownChan := chan_open;
         stopDbUpgrade := stopDbUpgrade;
         blockchain := bc;
         lesServer := None;
         pow := CreatePoW ctx config;
         accountManager := node.AccountManager ctx;
         MinerThreads := Config.MinerThreads config;
         etherbase := Config.Etherbase config;
         solcPath := Config.SolcPath config;
         netVersionId := Config.NetworkId config |}.

(** The accessors [AccountManager()] and [NetVersion()]. *)
Definition AccountManager (s : Ethereum) : accounts.Manager :=
  accountManager s.
Definition NetVersion (s : Ethereum) : Z := netVersionId s.

Definition etherbase_missing : error :=
  errorString "etherbase address must be explicitly specified".

(** [func Etherbase], with results [eb common.Address] and [err error]. *)
Definition Etherbase (s : Ethereum) : common.Address * option error :=
  if common.Address_neqb (etherbase s) common.zero_Address then
    (etherbase s, None)
  else
    match accounts.Wallets (AccountManager s) with
    | wallet0 :: _ =>
        match accounts.Accounts wallet0 with
        | account0 :: _ => (accounts.Address account0, None)
        | [] => (common.zero_Address, Some etherbase_missing)
        end
    | [] => (common.zero_Address, Some etherbase_missing)
    end.

(** [func SetEtherbase] *)
Definition SetEtherbase (self : Ethereum) (eb : common.Address) (w : World)
  : Ethereum * World :=
  ({| chainConfig := chainConfig self; shutdownChan := shutdownChan self;
      stopDbUpgrade := stopDbUpgrade self; blockchain := blockchain self;
      lesServer := lesServer self; pow := pow self;
      accountManager := accountManager self;
      MinerThreads := MinerThreads self;
      etherbase := eb; solcPath := solcPath self;
      netVersionId := netVersionId self |},
   record w (call_miner_SetEtherbase eb) None).

(** [func StartMining], with result [error].  The [go]
    statement only launches the miner: the launch is the logged call. *)
Definition StartMining (s : Ethereum) (threads : Z) (w : World)
  : option error * World :=
  let (eb, err) := Etherbase s in
  match err with
  | Some e =>
      (Some (errorString ("etherbase missing: " ++ Error e)),
       record w (call_log_Error "Cannot start mining without etherbase") None)
  | None => (None, record w (call_go_miner_Start eb threads) None)
  end.

(** [func Start], with result [error]. *)
Definition Start (s : Ethereum) (w : World) : option error * World :=
  let w := record w (call_NewPublicNetAPI (NetVersion s)) None in
  let w := record w call_protocolManager_Start None in
  let w := match lesServer s with
           | Some _ => record w call_lesServer_Start None
           | None => w
           end in
  (None, w).

(** How a call of [Stop] ends. *)
Inductive Outcome : Type :=
| returned (err : option error)
| panicked (msg : string).

(** A teardown method: it has no result, and what goes wrong inside it
    stays with the callee. *)
Definition teardown (X : Collaborators) (c : Call) (w : World) : World :=
  record w c (teardown_error X c).

(** [close(s.shutdownChan)] *)
Definition close_shutdownChan (s : Ethereum) : Ethereum :=
  {| chainConfig := chainConfig s; shutdownChan := chan_closed;
     stopDbUpgrade := stopDbUpgrade s; blockchain := blockchain s;
     lesServer := lesServer s; pow := pow s;
     accountManager := accountManager s; MinerThreads := MinerThreads s;
     etherbase := etherbase s; solcPath := solcPath s;
     netVersionId := netVersionId s |}.

(** [func Stop], with result [error]. *)
Definition Stop (X : Collaborators) (s : Ethereum) (w : World)
  : Outcome * Ethereum * World :=
  let w := if stopDbUpgrade s then teardown X call_stopDbUpgrade w else w in
  let w := teardown X call_blockchain_Stop w in
  let w := teardown X call_protocolManager_Stop w in
  let w := match lesServer s with
           | Some _ => teardown X call_lesServer_Stop w
           | None => w
           end in
  let w := teardown X call_txPool_Stop w in
  let w := teardown X call_miner_Stop w in
  let w := teardown X call_eventMux_Stop w in
  let w := teardown X call_chainDb_Close w in
  match shutdownChan s with
  | chan_open =>
      (returned None, close_shutdownChan s,
       record w call_close_shutdownChan None)
  | chan_closed => (panicked "close of closed channel", s, w)
  end.

(** [func WaitForShutdown]: the receive returns once the
    channel is closed, and blocks ([None]) while it is open. *)
Definition WaitForShutdown (s : Ethereum) : option unit :=
  match shutdownChan s with
  | chan_closed => Some tt
  | chan_open => None
  end.

(** *** The API registry *)

(** The services [APIs] registers: one constructor per constructor call of
    the source, with the node it is given. *)
Inductive service : Type :=
| NewPublicEthereumAPI (s : Ethereum)
| NewPublicMinerAPI (s : Ethereum)
| NewPublicDownloaderAPI
| NewPrivateMinerAPI (s : Ethereum)
| NewPublicFilterAPI (lightMode : bool)
| NewPrivateAdminAPI (s : Ethereum)
| NewPublicDebugAPI (s : Ethereum)
| NewPrivateDebugAPI (config : params.ChainConfig) (s : Ethereum)
| netRPCService.

(** [rpc.API]; a [Public] field that a literal leaves out is [false]. *)
Record API : Type := mkAPI {
  Namespace : string;
  Version : string;
  Service : service;
  Public : bool
}.

(** [func APIs], appended to what [ethapi.GetAPIs] returns. *)
Definition APIs (GetAPIs : list API) (s : Ethereum) : list API :=
  (GetAPIs ++
   [ {| Namespace := "eth"; Version := "1.0";
        Service := NewPublicEthereumAPI s; Public := true |};
     {| Namespace := "eth"; Version := "1.0";
        Service := NewPublicMinerAPI s; Public := true |};
     {| Namespace := "eth"; Version := "1.0";
        Service := NewPublicDownloaderAPI; Public := true |};
     {| Namespace := "miner"; Version := "1.0";
        Service := NewPrivateMinerAPI s; Public := false |};
     {| Namespace := "eth"; Version := "1.0";
        Service := NewPublicFilterAPI false; Public := true |};
     {| Namespace := "admin"; Version := "1.0";
        Service := NewPrivateAdminAPI s; Public := false |};
     {| Namespace := "debug"; Version := "1.0";
        Service := NewPublicDebugAPI s; Public := true |};
     {| Namespace := "debug"; Version := "1.0";
        Service := NewPrivateDebugAPI (chainConfig s) s; Public := false |};
     {| Namespace := "net"; Version := "1.0";
        Service := netRPCService; Public := true |};
     {| Namespace := "exp"; Version := "1.0";
        Service := NewPublicEthereumAPI s; Public := true |};
     {| Namespace := "exp"; Version := "1.0";
        Service := NewPublicMinerAPI s; Public := true |};
     {| Namespace := "exp"; Version := "1.0";
        Service := NewPublicDownloaderAPI; Public := true |};
     {| Namespace := "exp"; Version := "1.0";
        Service := NewPublicFilterAPI false; Public := true |} ])%list.

End eth.

(* ================================================================== *)
(** ** Sample inputs *)

Module Sample.

Import eth.

(** A configuration with every option at its zero value but the peer
    budget and the light-server options. *)
Definition config (maxPeers lightPeers lightServ : Z) : Config.t :=
  {| Config.Genesis := None; Config.NetworkId := 2;
     Config.FastSync := false; Config.LightServ := lightServ;
     Config.LightPeers := lightPeers; Config.MaxPeers := maxPeers;
     Config.SkipBcVersionCheck := false;
     Config.DatabaseCache := 128; Config.DatabaseHandles := 1024;
     Config.PowFake := true; Config.PowTest := false;
     Config.PowShared := false; Config.ExtraData := [];
     Config.EthashCacheDir := "ethash";
     Config.Etherbase := common.zero_Address; Config.GasPrice := 20;
     Config.MinerThreads := 1; Config.SolcPath := "";
     Config.EnablePreimageRecording := false |}.

(** Collaborators that all succeed: genesis resolution answers
    [genesisErr], a fresh chain stands at height [head], and the teardown
    step [failing] runs into an error. *)
Definition collaborators (genesisErr : option error) (head : Z)
  (failing : Call -> bool) : Collaborators :=
  {| BlockChainVersion := 3;
     OpenDatabase := fun _ _ _ => None;
     upgradeSequentialKeys := fun _ => true;
     SetupGenesisBlock := fun _ _ => (7%N, [x2a], genesisErr);
     addMipmapBloomBins := fun _ => None;
     NewBlockChain := fun _ _ => ({| currentBlock := head |}, None);
     NewProtocolManager := fun _ _ _ _ => None;
     teardown_error :=
       fun c => if failing c then Some (errorString "leveldb: closed")
                else None |}.

Definition only_Close (c : Call) : bool :=
  match c with
  | call_chainDb_Close => true
  | _ => false
  end.

Definition no_step (c : Call) : bool := false.

(** A database with the given stored schema version, and no call made. *)
Definition world (version : Z) : World :=
  {| chaindata := {| stored_version := version; stored_config := [] |};
     calls := [] |}.

Definition ctx : node.ServiceContext :=
  {| node.AccountManager := {| accounts.Wallets := [] |} |}.

Definition address (b : byte) : common.Address :=
  repeat b common.AddressLength.

(** A node with the given configured reward address and wallets. *)
Definition node (eb : common.Address) (wallets : list accounts.Wallet)
  (les : option LesServer) (upgrade : bool) : Ethereum :=
  {| chainConfig := 7%N; shutdownChan := chan_open;
     stopDbUpgrade := upgrade;
     blockchain := {| currentBlock := 100 |};
     lesServer := les; pow := pow.FakePow;
     accountManager := {| accounts.Wallets := wallets |};
     MinerThreads := 1; etherbase := eb; solcPath := "";
     netVersionId := 2 |}.

Definition wallet (bs : list byte) : accounts.Wallet :=
  {| accounts.Accounts :=
       map (fun b => {| accounts.Address := address b;
                        accounts.URL := "keystore" |}) bs |}.

End Sample.

(* ================================================================== *)
(** ** A scripted transport *)

Module Scripted.

(** A client that records what is sent and answers from a script. *)
Record Client : Type := mkClient {
  link_down : bool;
  sent : list rpc.Request;
  inbox : list (rpc.Value * option error)
}.

Definition send (c : Client) (req : rpc.Request) : Client * option error :=
  if link_down c then (c, Some (errorString "write: broken pipe"))
  else ({| link_down := false; sent := (sent c ++ [req])%list;
           inbox := inbox c |}, None).

Definition recv (c : Client) : Client * (rpc.Value * option error) :=
  match inbox c with
  | [] => (c, (rpc.Nil, Some (errorString "EOF")))
  | r :: rest =>
      ({| link_down := link_down c; sent := sent c; inbox := rest |}, r)
  end.

#[global] Instance client : rpc.ExpanseClient Client :=
  {| rpc.Send := send; rpc.Recv := recv |}.

Definition unsupported (v : rpc.Value) : bool :=
  match v with
  | rpc.Other _ => true
  | _ => false
  end.

(** A marshaller that refuses values of a foreign dynamic type and renders
    every other parameter list as the empty array. *)
Definition marshal (params : list rpc.Value) : list byte * option error :=
  if existsb unsupported params
  then ([], Some (errorString "json: unsupported type"))
  else ([x5b; x5d], None).

End Scripted.

(* ================================================================== *)
(** ** Observations on the call log *)

(** The calls of [w'] made after those of [w]. *)
Definition new_calls (w w' : eth.World) : list eth.Entry :=
  skipn (List.length (eth.calls w)) (eth.calls w').

(** In the trace [l], [a] is called ahead of [b] and not again afterwards:
    [b] happens only after [a] is over. *)
Definition before (a b : eth.Call) (l : list eth.Call) : Prop :=
  exists l1 l2, l = (l1 ++ b :: l2)%list /\ In a l1 /\ ~ In a (b :: l2).

(** The teardown order as the specification gives it, for a node with or
    without a running schema upgrade and a light-serving add-on. *)
Definition teardown_order (s : eth.Ethereum) : list eth.Call :=
  ((if eth.stopDbUpgrade s then [eth.call_stopDbUpgrade] else [])
   ++ [eth.call_blockchain_Stop; eth.call_protocolManager_Stop]
   ++ (match eth.lesServer s with
       | Some _ => [eth.call_lesServer_Stop]
       | None => []
       end)
   ++ [eth.call_txPool_Stop; eth.call_miner_Stop; eth.call_eventMux_Stop;
       eth.call_chainDb_Close; eth.call_close_shutdownChan])%list.

(** The stop calls of the subsystems, and those among them that post on
    the event multiplexer. *)
Definition subsystem_stops : list eth.Call :=
  [eth.call_stopDbUpgrade; eth.call_blockchain_Stop;
   eth.call_protocolManager_Stop; eth.call_lesServer_Stop;
   eth.call_txPool_Stop; eth.call_miner_Stop; eth.call_eventMux_Stop].

Definition producer_stops : list eth.Call :=
  [eth.call_blockchain_Stop; eth.call_protocolManager_Stop;
   eth.call_lesServer_Stop; eth.call_txPool_Stop; eth.call_miner_Stop].

(** The database as the schema-version check of [New] leaves it when it
    lets construction go on. *)
Definition after_version_check (X : eth.Collaborators)
  (config : eth.Config.t) (db : eth.Database) : eth.Database :=
  if eth.Config.SkipBcVersionCheck config then db
  else {| eth.stored_version := eth.BlockChainVersion X;
          eth.stored_config := eth.stored_config db |}.

(** Recognises the closing of the shutdown channel. *)
Definition is_close_shutdownChan (c : eth.Call) : bool :=
  match c with
  | eth.call_close_shutdownChan => true
  | _ => false
  end.

(** The wallet fallback of the reward-address resolution, as the
    specification words it: the first account of the first wallet, or the
    missing-address error. *)
Definition first_wallet_account (m : accounts.Manager)
  : common.Address * option error :=
  match accounts.Wallets m with
  | wallet0 :: _ =>
      match accounts.Accounts wallet0 with
      | account0 :: _ => (accounts.Address account0, None)
      | [] => (common.zero_Address, Some eth.etherbase_missing)
      end
  | [] => (common.zero_Address, Some eth.etherbase_missing)
  end.

(** The first step of [New] that fails, read off the collaborators'
    answers in the order [New] consults them; [None] when none does. *)
Definition first_failure (X : eth.Collaborators) (config : eth.Config.t)
  (db : eth.Database) : option error :=
  match eth.OpenDatabase X "chaindata" (eth.Config.DatabaseCache config)
          (eth.Config.DatabaseHandles config) with
  | Some e => Some e
  | None =>
      let '(cfg, _, genesisErr) :=
        eth.SetupGenesisBlock X db (eth.Config.Genesis config) in
      match genesisErr with
      | Some (errorString msg) => Some (errorString msg)
      | _ =>
          match eth.addMipmapBloomBins X db with
          | Some e => Some e
          | None =>
              if negb (eth.Config.SkipBcVersionCheck config)
                 && (negb (eth.stored_version db =? eth.BlockChainVersion X)%Z
                     && negb (eth.stored_version db =? 0)%Z)
              then Some (eth.version_mismatch (eth.stored_version db)
                           (eth.BlockChainVersion X))
              else
                match snd (eth.NewBlockChain X
                             (after_version_check X config db) cfg) with
                | Some e => Some e
                | None =>
                    eth.NewProtocolManager X cfg (eth.Config.FastSync config)
                      (eth.Config.NetworkId config) (eth.maxPeers config)
                end
          end
      end
  end.

(** The calls of a construction that goes through, in order. *)
Definition construction_order (X : eth.Collaborators)
  (config : eth.Config.t) (db : eth.Database) : list eth.Call :=
  let '(cfg, h, genesisErr) :=
    eth.SetupGenesisBlock X db (eth.Config.Genesis config) in
  ([eth.call_OpenDatabase "chaindata" (eth.Config.DatabaseCache config)
      (eth.Config.DatabaseHandles config);
    eth.call_upgradeSequentialKeys;
    eth.call_SetupGenesisBlock (eth.Config.Genesis config);
    eth.call_addMipmapBloomBins]
   ++ (if eth.Config.SkipBcVersionCheck config then []
       else [eth.call_WriteBlockChainVersion (eth.BlockChainVersion X)])
   ++ [eth.call_NewBlockChain cfg]
   ++ (match asConfigCompatError genesisErr with
       | Some RewindTo =>
           [eth.call_blockchain_SetHead RewindTo;
            eth.call_WriteChainConfig h cfg]
       | None => []
       end)
   ++ [eth.call_NewTxPool;
       eth.call_NewProtocolManager (eth.Config.FastSync config)
         (eth.Config.NetworkId config) (eth.maxPeers config);
       eth.call_miner_New;
       eth.call_miner_SetGasPrice (eth.Config.GasPrice config);
       eth.call_miner_SetExtra (eth.Config.ExtraData config);
       eth.call_NewGasPriceOracle])%list.

(** A caller issuing one [Call] after the other on the same client. *)
Definition call_all {C : Type} `{rpc.ExpanseClient C}
  (json_Marshal : list rpc.Value -> list byte * option error)
  (self : rpc.Xeth C) (requests : list (string * list rpc.Value))
  : rpc.Xeth C :=
  fold_left (fun x r => fst (rpc.Call json_Marshal x (fst r) (snd r)))
            requests self.

(** The services whose constructor is named private. *)
Definition is_private (svc : eth.service) : bool :=
  match svc with
  | eth.NewPrivateMinerAPI _ => true
  | eth.NewPrivateAdminAPI _ => true
  | eth.NewPrivateDebugAPI _ _ => true
  | _ => false
  end.

(** The services registered under a namespace, with their visibility. *)
Definition registered (ns : string) (apis : list eth.API)
  : list (eth.service * bool) :=
  map (fun a => (eth.Service a, eth.Public a))
      (filter (fun a => String.eqb (eth.Namespace a) ns) apis).

(* ================================================================== *)
(** ** Peer capacity *)

Section PeerCapacity.

Import eth.

Lemma wrap_in_int (z : Z) : GoInt.in_int z -> GoInt.wrap z = z.
Proof.
  unfold GoInt.in_int, GoInt.int_min, GoInt.int_max, GoInt.wrap.
  intros Hz. rewrite Z.mod_small; lia.
Qed.


Lemma maxPeers_light (config : Config.t) :
  0 < Config.LightServ config ->
  maxPeers config =
    Z.max (GoInt.sub (Config.MaxPeers config) (Config.LightPeers config))
          (GoInt.quo (Config.MaxPeers config) 2).
Proof.
  intros Hserv. unfold maxPeers.
  apply Z.ltb_lt in Hserv. rewrite Hserv.
  destruct (Z.ltb_spec
              (GoInt.sub (Config.MaxPeers config) (Config.LightPeers config))
              (GoInt.quo (Config.MaxPeers config) 2)); lia.
Qed.

Lemma maxPeers_light_plain (config : Config.t) :
  0 <= Config.MaxPeers config <= GoInt.int_max ->
  0 <= Config.LightPeers config <= GoInt.int_max ->
  0 < Config.LightServ config ->
  maxPeers config =
    Z.max (Config.MaxPeers config - Config.LightPeers config)
          (Config.MaxPeers config / 2)
  /\ 0 <= Config.MaxPeers config / 2 <= Config.MaxPeers config.
Proof.
  intros HM HL Hserv. rewrite maxPeers_light by assumption.
  unfold GoInt.sub, GoInt.quo, GoInt.int_max in *.
  rewrite Z.quot_div_nonneg by lia.
  assert (Hq : 0 <= Config.MaxPeers config / 2 <= Config.MaxPeers config).
  { split; [apply Z.div_pos | apply Z.div_le_upper_bound]; lia. }
  rewrite !wrap_in_int
    by (unfold GoInt.in_int, GoInt.int_min, GoInt.int_max; lia).
  split; [reflexivity | exact Hq].
Qed.

Lemma maxPeers_full (config : Config.t) :
  Config.LightServ config <= 0 -> maxPeers config = Config.MaxPeers config.
Proof.
  intros Hserv. unfold maxPeers.
  apply Z.ltb_ge in Hserv. rewrite Hserv. reflexivity.
Qed.

End PeerCapacity.

(** Unfolds the steps of [New] down to the collaborators' answers. *)
Ltac step_New :=
  unfold eth.New, eth.CreateDB, eth.checkBcVersion, eth.rewind,
    eth.WriteBlockChainVersion, eth.WriteChainConfig, eth.bind, eth.try,
    eth.invoke, eth.ret, eth.raise, eth.get_db, eth.record,
    eth.GetBlockChainVersion in *;
  simpl in *.

(** Case analysis on every answer the code under the goal branches on. *)
Ltac split_New :=
  repeat (simpl;
          match goal with
          | |- context [match ?x with _ => _ end] =>
              lazymatch x with
              | context [match _ with _ => _ end] => fail
              | _ => destruct x eqn:?
              end
          end).

Section Construction.

Import eth.

Lemma new_calls_app (w : World) (l : list Entry) (d : Database) :
  new_calls w {| chaindata := d; calls := calls w ++ l |} = l.
Proof.
  unfold new_calls. simpl.
  rewrite skipn_app, skipn_all, Nat.sub_diag. reflexivity.
Qed.


(** What a node that [New] returns starts out with. *)
Lemma New_fields (X : Collaborators) (ctx : node.ServiceContext)
  (config : Config.t) (w : World) (s : Ethereum) :
  fst (New X ctx config w) = ok s ->
  etherbase s = Config.Etherbase config
  /\ accountManager s = node.AccountManager ctx
  /\ shutdownChan s = chan_open
  /\ lesServer s = None.
Proof.
  step_New. split_New; simpl; intros Hs; inversion Hs; simpl; auto.
Qed.

End Construction.

(* ================================================================== *)
(** ** Properties: peer capacity *)



(** C7, as stated, fails: with a negative light-peer reservation the
    budget exceeds the configured total, and a negative total gives a
    negative budget. *)
Lemma peer_capacity_bounds_counterexample :
  ~ (forall config : eth.Config.t,
       GoInt.in_int (eth.Config.MaxPeers config) ->
       GoInt.in_int (eth.Config.LightPeers config) ->
       0 <= eth.maxPeers config <= eth.Config.MaxPeers config)
  /\ eth.maxPeers (Sample.config 50 (-10) 25) = 60
  /\ eth.maxPeers (Sample.config (-4) 0 0) = -4.
Proof.
  split; [ | split; reflexivity].
  intros H. specialize (H (Sample.config 50 (-10) 25)).
  assert (Hv : eth.maxPeers (Sample.config 50 (-10) 25) = 60) by reflexivity.
  rewrite Hv in H. simpl in H.
  unfold GoInt.in_int, GoInt.int_min, GoInt.int_max in H. lia.
Qed.

(** C7, amended.  When the configured total and the light-peer reservation
    are both non-negative, the peer budget handed to the protocol manager
    is neither negative nor above the configured total. *)
Theorem peer_capacity_bounds (config : eth.Config.t) :
  0 <= eth.Config.MaxPeers config <= GoInt.int_max ->
  0 <= eth.Config.LightPeers config <= GoInt.int_max ->
  0 <= eth.maxPeers config <= eth.Config.MaxPeers config.
Proof.
  intros HM HL.
  destruct (Z.ltb_spec 0 (eth.Config.LightServ config)) as [Hs | Hs].
  - destruct (maxPeers_light_plain config) as [Heq Hq]; try assumption.
    rewrite Heq. lia.
  - rewrite maxPeers_full by assumption. lia.
Qed.

Lemma peer_capacity_bounds_witness :
  0 <= eth.maxPeers (Sample.config 50 40 25) <= 50.
Proof.
  apply (peer_capacity_bounds (Sample.config 50 40 25)); simpl;
    unfold GoInt.int_max; lia.
Defined.

(* ================================================================== *)
(** ** Properties: the event vocabulary *)

(** C9, as stated, fails: [events.go] declares a thirteenth event,
    [ChainEvent], with a block, a hash and logs; no listed kind carries
    that payload, so it is none of the twelve. *)
Lemma event_vocabulary_counterexample :
  let e : core.Event unit unit unit unit := core.ChainEvent tt [] tt in
  (~ exists s, core.spec_payload s = core.payload e)
  /\ (~ exists s, core.realises s = e)
  /\ ~ (forall e' : core.Event unit unit unit unit,
          exists s, core.realises s = e').
Proof.
  intros e.
  assert (Hnone : ~ exists s, core.realises s = e).
  { intros [s Hs]. destruct s; discriminate Hs. }
  split; [ | split].
  - intros [s Hs]. destruct s; discriminate Hs.
  - exact Hnone.
  - intros H. apply Hnone. apply H.
Qed.

(** C9, amended.  The event vocabulary is a closed tagged set of thirteen
    kinds: the twelve listed ones with the listed payloads, each realised
    by exactly one struct type of [events.go], and [ChainEvent] carrying a
    block, a hash and logs; no other event kind exists. *)
Theorem event_vocabulary (Transaction Block Logs BigInt : Type) :
  (forall e : core.Event Transaction Block Logs BigInt,
     (exists s, core.realises s = e)
     \/ (exists block hash logs, e = core.ChainEvent block hash logs))
  /\ (forall s : core.SpecEvent Transaction Block Logs BigInt,
        core.payload (core.realises s) = core.spec_payload s)
  /\ (forall s1 s2 : core.SpecEvent Transaction Block Logs BigInt,
        core.realises s1 = core.realises s2 -> s1 = s2)
  /\ (forall (s : core.SpecEvent Transaction Block Logs BigInt)
             block hash logs,
        core.realises s <> core.ChainEvent block hash logs)
  /\ (forall block hash logs,
        core.payload
          (core.ChainEvent block hash logs
           : core.Event Transaction Block Logs BigInt)
        = [core.FBlock block; core.FHash hash; core.FLogs logs]).
Proof.
  repeat split.
  - intros e. destruct e;
      try (left;
           first [ now exists (core.Spec_TxPending _ _ _ _ Tx)
                 | now exists (core.Spec_TxProcessed _ _ _ _ Tx)
                 | now exists (core.Spec_NewBlock _ _ _ _ Blk)
                 | now exists (core.Spec_MinedBlock _ _ _ _ Blk)
                 | now exists (core.Spec_ChainHead _ _ _ _ Blk)
                 | now exists (core.Spec_ChainSplit _ _ _ _ Blk Lgs)
                 | now exists (core.Spec_ChainSideBlock _ _ _ _ Blk Lgs)
                 | now exists (core.Spec_PendingState _ _ _ _ Blk Lgs)
                 | now exists (core.Spec_UncleBlock _ _ _ _ Blk)
                 | now exists (core.Spec_GasPriceChanged _ _ _ _ Price)
                 | now exists (core.Spec_MiningStarted _ _ _ _)
                 | now exists (core.Spec_MiningStopped _ _ _ _) ]).
    right. now exists Blk, Hash, Lgs.
  - intros s. destruct s; reflexivity.
  - intros s1 s2 Heq. destruct s1, s2; simpl in Heq;
      first [ discriminate Heq | now inversion Heq ].
  - intros s block hash logs Heq. destruct s; discriminate Heq.
Qed.

Lemma event_vocabulary_witness :
  core.payload (core.realises (core.Spec_ChainSplit unit unit unit unit tt tt))
    = [core.FBlock tt; core.FLogs tt]
  /\ core.realises (core.Spec_MiningStopped unit unit unit unit)
     <> core.ChainEvent tt [] tt.
Proof.
  destruct (event_vocabulary unit unit unit unit) as (_ & Hp & _ & Hne & _).
  split.
  - exact (Hp (core.Spec_ChainSplit unit unit unit unit tt tt)).
  - exact (Hne (core.Spec_MiningStopped unit unit unit unit) tt [] tt).
Defined.

(* ================================================================== *)
(** ** Properties: teardown *)

Section Teardown.

Import eth.

Lemma Stop_open (X : Collaborators) (s : Ethereum) (w : World) :
  shutdownChan s = chan_open ->
  exists w',
    Stop X s w = (returned None, close_shutdownChan s, w')
    /\ chaindata w' = chaindata w
    /\ new_calls w w' =
         (map (fun c => (c, teardown_error X c))
              (removelast (teardown_order s))
          ++ [(call_close_shutdownChan, None)])%list.
Proof.
  intros Hopen. unfold Stop, teardown, teardown_order, record.
  rewrite Hopen.
  destruct (stopDbUpgrade s), (lesServer s); simpl;
    eexists; (split; [reflexivity | split; [reflexivity | ]]);
    rewrite <- ?app_assoc; apply new_calls_app.
Qed.

Lemma map_fst_teardown (X : Collaborators) (l : list Call) :
  map fst (map (fun c => (c, teardown_error X c)) l) = l.
Proof.
  induction l as [ | c l IH]; simpl; [reflexivity | now rewrite IH].
Qed.

Lemma Stop_trace (X : Collaborators) (s : Ethereum) (w : World) :
  shutdownChan s = chan_open ->
  map fst (new_calls w (snd (Stop X s w))) = teardown_order s.
Proof.
  intros Hopen. destruct (Stop_open X s w Hopen) as (w' & HS & _ & Hc).
  rewrite HS. simpl. rewrite Hc, map_app, map_fst_teardown. simpl.
  unfold teardown_order.
  destruct (stopDbUpgrade s), (lesServer s); reflexivity.
Qed.

End Teardown.

(** Finds the place of [b] in a concrete trace to establish [before]. *)
Ltac split_at_before :=
  lazymatch goal with
  | |- before ?a ?b ?l =>
      let rec go pre post :=
        lazymatch post with
        | ?x :: ?rest =>
            first [ solve [ exists pre, rest;
                            split; [reflexivity | ];
                            split; [simpl; tauto | ];
                            simpl; intuition discriminate ]
                  | let pre' := eval simpl in (pre ++ [x])%list in
                    go pre' rest ]
        end
      in go (@nil eth.Call) l
  end.

Lemma teardown_trace_order (X : eth.Collaborators) (s : eth.Ethereum)
  (w : eth.World) :
  eth.shutdownChan s = eth.chan_open ->
  let trace := map fst (new_calls w (snd (eth.Stop X s w))) in
  trace = teardown_order s
  /\ (forall c, In c subsystem_stops -> In c trace ->
        before c eth.call_chainDb_Close trace)
  /\ (forall c, In c producer_stops -> In c trace ->
        before c eth.call_eventMux_Stop trace)
  /\ before eth.call_chainDb_Close eth.call_close_shutdownChan trace
  /\ last trace eth.call_blockchain_Stop = eth.call_close_shutdownChan.
Proof.
  intros Hopen trace. subst trace. rewrite Stop_trace by assumption.
  unfold teardown_order, subsystem_stops, producer_stops.
  split; [reflexivity | ].
  destruct (eth.stopDbUpgrade s), (eth.lesServer s); simpl;
    (split; [ | split; [ | split; [ | reflexivity]]]);
    try split_at_before;
    intros c Hc Hin;
    repeat (destruct Hc as [Hc | Hc]; [subst c | ]);
    try contradiction;
    try split_at_before;
    exfalso; simpl in Hin; intuition discriminate.
Qed.

(** C1.  [Stop] on a node whose shutdown channel is still open performs
    its teardown in this order: the schema upgrade is halted if one was
    started, then the chain store, the protocol manager, the light-serving
    add-on if present, the transaction pool, the miner and the event
    multiplexer are stopped, then the database is closed, and last the
    shutdown channel is closed.  The database is closed only after every
    subsystem has been stopped, and the multiplexer is stopped only after
    every subsystem posting on it.  The last step does signal the
    shutdown: [Stop] returns (nil, without a panic), the node it leaves
    has its shutdown channel closed and is otherwise the node it was
    given, a waiter that was blocked before is released, and the closing
    is the one call logged after the closing of the database. *)
Theorem Stop_order (X : eth.Collaborators) (s : eth.Ethereum)
  (w : eth.World) :
  eth.shutdownChan s = eth.chan_open ->
  let trace := map fst (new_calls w (snd (eth.Stop X s w))) in
  let s' := snd (fst (eth.Stop X s w)) in
  trace = teardown_order s
  /\ (forall c, In c subsystem_stops -> In c trace ->
        before c eth.call_chainDb_Close trace)
  /\ (forall c, In c producer_stops -> In c trace ->
        before c eth.call_eventMux_Stop trace)
  /\ before eth.call_chainDb_Close eth.call_close_shutdownChan trace
  /\ last trace eth.call_blockchain_Stop = eth.call_close_shutdownChan
  /\ fst (fst (eth.Stop X s w)) = eth.returned None
  /\ eth.shutdownChan s' = eth.chan_closed
  /\ eth.WaitForShutdown s = None
  /\ eth.WaitForShutdown s' = Some tt
  /\ (eth.chainConfig s', eth.stopDbUpgrade s', eth.blockchain s',
      eth.lesServer s', eth.pow s', eth.accountManager s',
      eth.MinerThreads s', eth.etherbase s', eth.solcPath s',
      eth.netVersionId s')
     = (eth.chainConfig s, eth.stopDbUpgrade s, eth.blockchain s,
        eth.lesServer s, eth.pow s, eth.accountManager s,
        eth.MinerThreads s, eth.etherbase s, eth.solcPath s,
        eth.netVersionId s)
  /\ (exists steps,
        new_calls w (snd (eth.Stop X s w))
        = (steps ++ [(eth.call_chainDb_Close,
                      eth.teardown_error X eth.call_chainDb_Close);
                     (eth.call_close_shutdownChan, None)])%list
        /\ Forall (fun entry =>
                     is_close_shutdownChan (fst entry) = false) steps).
Proof.
  intros Hopen trace s'.
  destruct (teardown_trace_order X s w Hopen) as (H1 & H2 & H3 & H4 & H5).
  split; [exact H1 | ]. split; [exact H2 | ]. split; [exact H3 | ].
  split; [exact H4 | ]. split; [exact H5 | ].
  destruct (Stop_open X s w Hopen) as (w1 & HS & _ & Hcalls).
  subst s'. rewrite HS. simpl.
  split; [reflexivity | ]. split; [reflexivity | ].
  split; [unfold eth.WaitForShutdown; now rewrite Hopen | ].
  split; [reflexivity | ]. split; [reflexivity | ].
  rewrite Hcalls. unfold teardown_order.
  destruct (eth.stopDbUpgrade s), (eth.lesServer s); simpl.
  - exists [(eth.call_stopDbUpgrade, eth.teardown_error X eth.call_stopDbUpgrade);
            (eth.call_blockchain_Stop, eth.teardown_error X eth.call_blockchain_Stop);
            (eth.call_protocolManager_Stop, eth.teardown_error X eth.call_protocolManager_Stop);
            (eth.call_lesServer_Stop, eth.teardown_error X eth.call_lesServer_Stop);
            (eth.call_txPool_Stop, eth.teardown_error X eth.call_txPool_Stop);
            (eth.call_miner_Stop, eth.teardown_error X eth.call_miner_Stop);
            (eth.call_eventMux_Stop, eth.teardown_error X eth.call_eventMux_Stop)].
    split; [reflexivity | repeat constructor].
  - exists [(eth.call_stopDbUpgrade, eth.teardown_error X eth.call_stopDbUpgrade);
            (eth.call_blockchain_Stop, eth.teardown_error X eth.call_blockchain_Stop);
            (eth.call_protocolManager_Stop, eth.teardown_error X eth.call_protocolManager_Stop);
            (eth.call_txPool_Stop, eth.teardown_error X eth.call_txPool_Stop);
            (eth.call_miner_Stop, eth.teardown_error X eth.call_miner_Stop);
            (eth.call_eventMux_Stop, eth.teardown_error X eth.call_eventMux_Stop)].
    split; [reflexivity | repeat constructor].
  - exists [(eth.call_blockchain_Stop, eth.teardown_error X eth.call_blockchain_Stop);
            (eth.call_protocolManager_Stop, eth.teardown_error X eth.call_protocolManager_Stop);
            (eth.call_lesServer_Stop, eth.teardown_error X eth.call_lesServer_Stop);
            (eth.call_txPool_Stop, eth.teardown_error X eth.call_txPool_Stop);
            (eth.call_miner_Stop, eth.teardown_error X eth.call_miner_Stop);
            (eth.call_eventMux_Stop, eth.teardown_error X eth.call_eventMux_Stop)].
    split; [reflexivity | repeat constructor].
  - exists [(eth.call_blockchain_Stop, eth.teardown_error X eth.call_blockchain_Stop);
            (eth.call_protocolManager_Stop, eth.teardown_error X eth.call_protocolManager_Stop);
            (eth.call_txPool_Stop, eth.teardown_error X eth.call_txPool_Stop);
            (eth.call_miner_Stop, eth.teardown_error X eth.call_miner_Stop);
            (eth.call_eventMux_Stop, eth.teardown_error X eth.call_eventMux_Stop)].
    split; [reflexivity | repeat constructor].
Qed.

Lemma Stop_order_witness :
  let X := Sample.collaborators None 100 Sample.no_step in
  let s := Sample.node common.zero_Address [] (Some eth.lesServerImpl) true in
  let w := Sample.world 3 in
  map fst (new_calls w (snd (eth.Stop X s w)))
  = [eth.call_stopDbUpgrade; eth.call_blockchain_Stop;
     eth.call_protocolManager_Stop; eth.call_lesServer_Stop;
     eth.call_txPool_Stop; eth.call_miner_Stop; eth.call_eventMux_Stop;
     eth.call_chainDb_Close; eth.call_close_shutdownChan]
  /\ fst (fst (eth.Stop X s w)) = eth.returned None
  /\ eth.shutdownChan (snd (fst (eth.Stop X s w))) = eth.chan_closed
  /\ eth.WaitForShutdown (snd (fst (eth.Stop X s w))) = Some tt.
Proof.
  intros X s w.
  destruct (Stop_order X s w eq_refl)
    as (Htrace & _ & _ & _ & _ & Hnil & Hclosed & _ & Hwait & _).
  split; [exact Htrace | ]. split; [exact Hnil | ].
  split; [exact Hclosed | exact Hwait].
Defined.

(** C6, as stated, fails: a teardown step that runs into an error (here
    the closing of the database) leaves [Stop]'s result nil; the error is
    not surfaced to the caller. *)
Lemma Stop_surfaces_errors_counterexample :
  let X := Sample.collaborators None 100 Sample.only_Close in
  let s := Sample.node common.zero_Address [] None false in
  let w := Sample.world 3 in
  In (eth.call_chainDb_Close, Some (errorString "leveldb: closed"))
     (new_calls w (snd (eth.Stop X s w)))
  /\ fst (fst (eth.Stop X s w)) = eth.returned None
  /\ ~ (forall X s w,
          eth.shutdownChan s = eth.chan_open ->
          forall c e,
            In (c, Some e) (new_calls w (snd (eth.Stop X s w))) ->
            exists e', fst (fst (eth.Stop X s w)) = eth.returned (Some e')).
Proof.
  intros X s w.
  assert (Hin : In (eth.call_chainDb_Close,
                    Some (errorString "leveldb: closed"))
                   (new_calls w (snd (eth.Stop X s w)))).
  { vm_compute. tauto. }
  split; [exact Hin | ]. split; [reflexivity | ].
  intros H. destruct (H X s w eq_refl _ _ Hin) as [e' He'].
  discriminate He'.
Qed.

(** C6, amended.  [Stop]'s steps are unconditional cleanup: whatever
    errors the steps run into, every step of the teardown order is
    performed, each error stays with the step that met it, and [Stop]
    returns nil.  On a node whose shutdown channel is still open, [Stop]
    closes that channel exactly once, as its last step, which releases
    every waiter. *)
Theorem Stop_best_effort (X : eth.Collaborators) (s : eth.Ethereum)
  (w : eth.World) :
  eth.shutdownChan s = eth.chan_open ->
  let '(outcome, s', w') := eth.Stop X s w in
  outcome = eth.returned None
  /\ map fst (new_calls w w') = teardown_order s
  /\ (forall c e, In (c, e) (new_calls w w') ->
        c <> eth.call_close_shutdownChan -> e = eth.teardown_error X c)
  /\ List.length (filter is_close_shutdownChan (map fst (new_calls w w')))
     = 1%nat
  /\ eth.WaitForShutdown s = None
  /\ eth.WaitForShutdown s' = Some tt.
Proof.
  intros Hopen.
  pose proof (Stop_trace X s w Hopen) as Htrace.
  destruct (Stop_open X s w Hopen) as (w1 & HS & _ & Hcalls).
  rewrite HS in *. simpl in Htrace.
  split; [reflexivity | ]. split; [exact Htrace | ].
  split; [ | split; [ | split]].
  - intros c e Hin Hne. rewrite Hcalls in Hin.
    apply in_app_or in Hin. destruct Hin as [Hin | Hin].
    + apply in_map_iff in Hin. destruct Hin as (c' & Heq & _).
      now inversion Heq.
    + simpl in Hin. destruct Hin as [Heq | []].
      inversion Heq. congruence.
  - rewrite Htrace. unfold teardown_order.
    destruct (eth.stopDbUpgrade s), (eth.lesServer s); reflexivity.
  - unfold eth.WaitForShutdown. now rewrite Hopen.
  - reflexivity.
Qed.

Lemma Stop_best_effort_witness :
  let X := Sample.collaborators None 100 Sample.only_Close in
  let s := Sample.node common.zero_Address [] None false in
  let w := Sample.world 3 in
  fst (fst (eth.Stop X s w)) = eth.returned None
  /\ eth.WaitForShutdown (snd (fst (eth.Stop X s w))) = Some tt.
Proof.
  intros X s w.
  pose proof (Stop_best_effort X s w eq_refl) as H.
  destruct (eth.Stop X s w) as [[outcome s'] w'].
  destruct H as (H1 & _ & _ & _ & _ & H2).
  split; [exact H1 | exact H2].
Defined.

(* ================================================================== *)
(** ** Properties: the reward address *)

Section RewardAddress.

Import eth.

Lemma Address_neqb_true (a b : common.Address) :
  common.Address_neqb a b = true <-> a <> b.
Proof.
  unfold common.Address_neqb.
  destruct (common.Address_eq_dec a b); split; congruence.
Qed.

Lemma Address_neqb_false (a b : common.Address) :
  common.Address_neqb a b = false <-> a = b.
Proof.
  unfold common.Address_neqb.
  destruct (common.Address_eq_dec a b); split; congruence.
Qed.

Lemma Etherbase_configured (s : Ethereum) :
  etherbase s <> common.zero_Address -> Etherbase s = (etherbase s, None).
Proof.
  intros Hne. unfold Etherbase.
  apply Address_neqb_true in Hne. now rewrite Hne.
Qed.

Lemma Etherbase_unset (s : Ethereum) :
  etherbase s = common.zero_Address ->
  Etherbase s = first_wallet_account (accountManager s).
Proof.
  intros Hz. unfold Etherbase, first_wallet_account, AccountManager.
  apply Address_neqb_false in Hz. now rewrite Hz.
Qed.

Lemma StartMining_calls (s : Ethereum) (threads : Z) (w : World) :
  new_calls w (snd (StartMining s threads w)) =
    match Etherbase s with
    | (_, Some _) =>
        [(call_log_Error "Cannot start mining without etherbase", None)]
    | (eb, None) => [(call_go_miner_Start eb threads, None)]
    end.
Proof.
  unfold StartMining, record.
  destruct (Etherbase s) as [eb [e | ]]; simpl; apply new_calls_app.
Qed.

End RewardAddress.

(** C4.  The reward address is resolved in this order: a configured
    (non-zero) address is returned; otherwise the first account of the
    first wallet; and when there is no such account, the missing-address
    error.  [StartMining] resolves the address first: on the error it
    returns an error that quotes it and launches no mining task, and a
    mining task is only ever launched with the resolved address. *)
Theorem etherbase_resolution (s : eth.Ethereum) :
  (eth.etherbase s <> common.zero_Address ->
     eth.Etherbase s = (eth.etherbase s, None))
  /\ (eth.etherbase s = common.zero_Address ->
      forall wallet0 wallets account0 accts,
        accounts.Wallets (eth.accountManager s) = wallet0 :: wallets ->
        accounts.Accounts wallet0 = account0 :: accts ->
        eth.Etherbase s = (accounts.Address account0, None))
  /\ (eth.etherbase s = common.zero_Address ->
      (forall wallet0 wallets,
         accounts.Wallets (eth.accountManager s) = wallet0 :: wallets ->
         accounts.Accounts wallet0 = []) ->
      eth.Etherbase s = (common.zero_Address, Some eth.etherbase_missing))
  /\ (forall threads w e,
        snd (eth.Etherbase s) = Some e ->
        fst (eth.StartMining s threads w)
          = Some (errorString ("etherbase missing: " ++ Error e))
        /\ forall eb t err,
             ~ In (eth.call_go_miner_Start eb t, err)
                  (new_calls w (snd (eth.StartMining s threads w))))
  /\ (forall threads w eb t err,
        In (eth.call_go_miner_Start eb t, err)
           (new_calls w (snd (eth.StartMining s threads w))) ->
        eth.Etherbase s = (eb, None) /\ t = threads
        /\ fst (eth.StartMining s threads w) = None)
  /\ (forall threads w eb,
        eth.Etherbase s = (eb, None) ->
        fst (eth.StartMining s threads w) = None
        /\ new_calls w (snd (eth.StartMining s threads w))
           = [(eth.call_go_miner_Start eb threads, None)]).
Proof.
  split; [apply Etherbase_configured | ].
  split.
  { intros Hz wallet0 wallets account0 accts Hw Ha.
    rewrite Etherbase_unset by assumption.
    unfold first_wallet_account. now rewrite Hw, Ha. }
  split.
  { intros Hz Hnone. rewrite Etherbase_unset by assumption.
    unfold first_wallet_account.
    destruct (accounts.Wallets (eth.accountManager s))
      as [ | wallet0 wallets] eqn:Hw; [reflexivity | ].
    now rewrite (Hnone wallet0 wallets eq_refl). }
  split; [ | split].
  - intros threads w e He. rewrite StartMining_calls.
    unfold eth.StartMining.
    destruct (eth.Etherbase s) as [eb [e' | ]]; simpl in *;
      [ | discriminate].
    inversion He; subst e'. split; [reflexivity | ].
    intros eb' t err [Hin | []]. discriminate Hin.
  - intros threads w eb t err. rewrite StartMining_calls.
    unfold eth.StartMining.
    destruct (eth.Etherbase s) as [eb' [e' | ]]; simpl;
      intros [Hin | []]; [discriminate Hin | ].
    inversion Hin. subst. auto.
  - intros threads w eb He. rewrite StartMining_calls.
    unfold eth.StartMining. rewrite He. split; reflexivity.
Qed.

Lemma etherbase_resolution_witness :
  eth.Etherbase (Sample.node (Sample.address x01) [Sample.wallet [x02]]
                   None false)
    = (Sample.address x01, None)
  /\ eth.Etherbase (Sample.node common.zero_Address
                      [Sample.wallet [x02; x03]; Sample.wallet [x04]]
                      None false)
     = (Sample.address x02, None)
  /\ eth.Etherbase (Sample.node common.zero_Address [] None false)
     = (common.zero_Address, Some eth.etherbase_missing)
  /\ fst (eth.StartMining (Sample.node common.zero_Address [] None false)
            4 (Sample.world 3))
     = Some (errorString
               "etherbase missing: etherbase address must be explicitly specified").
Proof.
  split.
  { apply (proj1 (etherbase_resolution
                    (Sample.node (Sample.address x01) [Sample.wallet [x02]]
                       None false))).
    simpl. discriminate. }
  split.
  { apply (proj1 (proj2 (etherbase_resolution
                           (Sample.node common.zero_Address
                              [Sample.wallet [x02; x03]; Sample.wallet [x04]]
                              None false)))
             eq_refl (Sample.wallet [x02; x03]) [Sample.wallet [x04]]
             {| accounts.Address := Sample.address x02;
                accounts.URL := "keystore" |}
             [{| accounts.Address := Sample.address x03;
                 accounts.URL := "keystore" |}]);
      reflexivity. }
  split.
  { apply (proj1 (proj2 (proj2
             (etherbase_resolution
                (Sample.node common.zero_Address [] None false)))));
      [reflexivity | simpl; discriminate]. }
  exact (proj1 (proj1 (proj2 (proj2 (proj2
           (etherbase_resolution
              (Sample.node common.zero_Address [] None false)))))
           4 (Sample.world 3) eth.etherbase_missing eq_refl)).
Defined.

Lemma zero_etherbase_fallback (s : eth.Ethereum) :
  (eth.etherbase s = common.zero_Address ->
     eth.Etherbase s = first_wallet_account (eth.accountManager s))
  /\ (eth.Etherbase s = (common.zero_Address, None) ->
      eth.etherbase s = common.zero_Address
      /\ exists wallet0 wallets account0 accts,
           accounts.Wallets (eth.accountManager s) = wallet0 :: wallets
           /\ accounts.Accounts wallet0 = account0 :: accts
           /\ accounts.Address account0 = common.zero_Address)
  /\ (forall X ctx config w,
        fst (eth.New X ctx config w) = eth.ok s ->
        eth.Config.Etherbase config = common.zero_Address ->
        eth.Etherbase s = first_wallet_account (node.AccountManager ctx))
  /\ (forall w,
        let s' := fst (eth.SetEtherbase s common.zero_Address w) in
        eth.Etherbase s' = first_wallet_account (eth.accountManager s)
        /\ (snd (first_wallet_account (eth.accountManager s)) <> None ->
            forall threads w1,
              fst (eth.StartMining s' threads w1) <> None
              /\ forall eb t err,
                   ~ In (eth.call_go_miner_Start eb t, err)
                        (new_calls w1
                           (snd (eth.StartMining s' threads w1))))).
Proof.
  split; [apply Etherbase_unset | ].
  split.
  - intros Hres.
    destruct (common.Address_eq_dec (eth.etherbase s) common.zero_Address)
      as [Hz | Hnz].
    + split; [exact Hz | ].
      rewrite Etherbase_unset in Hres by assumption.
      unfold first_wallet_account in Hres.
      destruct (accounts.Wallets (eth.accountManager s))
        as [ | wallet0 wallets]; [discriminate | ].
      destruct (accounts.Accounts wallet0) as [ | account0 accts] eqn:Ha;
        [discriminate | ].
      exists wallet0, wallets, account0, accts.
      repeat split; try assumption. now inversion Hres.
    + rewrite Etherbase_configured in Hres by assumption.
      inversion Hres. contradiction.
  - split.
    { intros X ctx config w Hnew Hz.
      destruct (New_fields X ctx config w s Hnew) as (He & Ha & _).
      rewrite Etherbase_unset by congruence. now rewrite Ha. }
    intros w s'.
    assert (Hs' : eth.Etherbase s'
                  = first_wallet_account (eth.accountManager s)).
    { subst s'. now rewrite Etherbase_unset by reflexivity. }
    split; [exact Hs' | ].
    intros Hfail threads w1. rewrite StartMining_calls.
    unfold eth.StartMining. rewrite Hs'.
    destruct (first_wallet_account (eth.accountManager s)) as [eb [e | ]];
      simpl in *; [ | congruence].
    split; [discriminate | ].
    intros eb' t err [Hin | []]. discriminate Hin.
Qed.

(** C10, as stated, fails in its last clause: the zero address can be the
    mining reward address.  With no address configured and a first wallet
    account that is the zero address, [Etherbase] returns the zero address
    and [StartMining] launches the miner with it; and [SetEtherbase] hands
    a zero address on to the miner as it is. *)
Lemma zero_reward_address_counterexample :
  let s := Sample.node common.zero_Address [Sample.wallet [x00]] None false in
  let w := Sample.world 3 in
  eth.Etherbase s = (common.zero_Address, None)
  /\ eth.StartMining s 1 w
     = (None, eth.record w (eth.call_go_miner_Start common.zero_Address 1)
                None)
  /\ new_calls w (snd (eth.SetEtherbase s common.zero_Address w))
     = [(eth.call_miner_SetEtherbase common.zero_Address, None)]
  /\ ~ (forall s threads w eb err,
          In (eth.call_go_miner_Start eb threads, err)
             (new_calls w (snd (eth.StartMining s threads w))) ->
          eb <> common.zero_Address).
Proof.
  intros s w.
  split; [reflexivity | ]. split; [reflexivity | ]. split; [reflexivity | ].
  intros H.
  apply (H s 1 w common.zero_Address None); [ | reflexivity].
  vm_compute. left. reflexivity.
Qed.

(** C10, amended.  A configured reward address equal to the all-zero
    address counts as not configured: the resolution skips it and answers
    with the first wallet account or the missing-address error, so the
    zero address is never returned as the configured value (when the
    resolution succeeds with the zero address, that address is the first
    wallet account); a node constructed with a zero reward address, or
    whose reward address is set to zero afterwards, resolves through the
    wallets, and without a wallet account it cannot start mining.  The
    zero address is not kept from the miner: [SetEtherbase] hands the
    address it is given to the miner, zero or not, and [StartMining]
    launches the miner with the zero address exactly when no address is
    configured and the first account of the first wallet is the zero
    address. *)
Theorem zero_etherbase_is_unset (s : eth.Ethereum) :
  (eth.etherbase s = common.zero_Address ->
     eth.Etherbase s = first_wallet_account (eth.accountManager s))
  /\ (eth.Etherbase s = (common.zero_Address, None) ->
      eth.etherbase s = common.zero_Address
      /\ exists wallet0 wallets account0 accts,
           accounts.Wallets (eth.accountManager s) = wallet0 :: wallets
           /\ accounts.Accounts wallet0 = account0 :: accts
           /\ accounts.Address account0 = common.zero_Address)
  /\ (forall X ctx config w,
        fst (eth.New X ctx config w) = eth.ok s ->
        eth.Config.Etherbase config = common.zero_Address ->
        eth.Etherbase s = first_wallet_account (node.AccountManager ctx))
  /\ (forall w,
        let s' := fst (eth.SetEtherbase s common.zero_Address w) in
        eth.Etherbase s' = first_wallet_account (eth.accountManager s)
        /\ (snd (first_wallet_account (eth.accountManager s)) <> None ->
            forall threads w1,
              fst (eth.StartMining s' threads w1) <> None
              /\ forall eb t err,
                   ~ In (eth.call_go_miner_Start eb t, err)
                        (new_calls w1
                           (snd (eth.StartMining s' threads w1)))))
  /\ (forall eb w,
        new_calls w (snd (eth.SetEtherbase s eb w))
          = [(eth.call_miner_SetEtherbase eb, None)]
        /\ eth.etherbase (fst (eth.SetEtherbase s eb w)) = eb)
  /\ (forall threads w,
        In (eth.call_go_miner_Start common.zero_Address threads, None)
           (new_calls w (snd (eth.StartMining s threads w)))
        <-> eth.etherbase s = common.zero_Address
            /\ exists wallet0 wallets account0 accts,
                 accounts.Wallets (eth.accountManager s)
                   = wallet0 :: wallets
                 /\ accounts.Accounts wallet0 = account0 :: accts
                 /\ accounts.Address account0 = common.zero_Address).
Proof.
  destruct (zero_etherbase_fallback s) as (H1 & H2 & H3 & H4).
  split; [exact H1 | ]. split; [exact H2 | ]. split; [exact H3 | ].
  split; [exact H4 | ]. split.
  - intros eb w. split; [apply new_calls_app | reflexivity].
  - intros threads w. rewrite StartMining_calls. split.
    + intros Hin. apply H2.
      destruct (eth.Etherbase s) as [eb [e | ]]; simpl in Hin;
        destruct Hin as [Hin | []]; [discriminate Hin | ].
      inversion Hin. reflexivity.
    + intros (Hz & wallet0 & wallets & account0 & accts & Hw & Ha & Hzero).
      rewrite Etherbase_unset by assumption.
      unfold first_wallet_account. rewrite Hw, Ha, Hzero.
      simpl. left. reflexivity.
Qed.


Lemma zero_etherbase_is_unset_witness :
  eth.Etherbase (Sample.node common.zero_Address [Sample.wallet [x02]]
                   None false)
    = (Sample.address x02, None)
  /\ eth.Etherbase (Sample.node common.zero_Address [] None false)
     = (common.zero_Address, Some eth.etherbase_missing)
  /\ In (eth.call_go_miner_Start common.zero_Address 1, None)
        (new_calls (Sample.world 3)
           (snd (eth.StartMining
                   (Sample.node common.zero_Address [Sample.wallet [x00]]
                      None false)
                   1 (Sample.world 3)))).
Proof.
  split; [ | split].
  - exact (proj1 (zero_etherbase_is_unset
                    (Sample.node common.zero_Address [Sample.wallet [x02]]
                       None false)) eq_refl).
  - exact (proj1 (zero_etherbase_is_unset
                    (Sample.node common.zero_Address [] None false))
             eq_refl).
  - destruct (zero_etherbase_is_unset
                (Sample.node common.zero_Address [Sample.wallet [x00]]
                   None false)) as (_ & _ & _ & _ & _ & Hstart).
    apply (proj2 (Hstart 1 (Sample.world 3))).
    split; [reflexivity | ].
    exists (Sample.wallet [x00]), [],
      {| accounts.Address := Sample.address x00;
         accounts.URL := "keystore" |}, [].
    repeat split.
Defined.

(* ================================================================== *)
(** ** Properties: the thin remote-call client *)

(** C8.  [Call] marshals the parameters and, when that succeeds, sends one
    request made of the next request id, the version string ["2.0"], the
    method name and the marshalled parameters, then receives one response.
    It returns an error exactly when marshalling fails, the send fails, the
    receive fails, or the response is not a key-value map; the error is the
    failing step's own, and for a response of another type it names that
    type.  Otherwise it returns the map. *)
Theorem Call_contract (C : Type) (T : rpc.ExpanseClient C)
  (json_Marshal : list rpc.Value -> list byte * option error)
  (self : rpc.Xeth C) (method : string) (params : list rpc.Value) :
  let '(self', (value, err)) := rpc.Call json_Marshal self method params in
  let data := fst (json_Marshal params) in
  let req := rpc.request_of self method data in
  let sending := rpc.Send (rpc.client self) req in
  let receiving := rpc.Recv (fst sending) in
  let res := fst (snd receiving) in
  (rpc.Id req = (rpc.reqId self + 1) mod 2 ^ 32
   /\ rpc.Jsonrpc req = "2.0" /\ rpc.Method req = method
   /\ rpc.Params req = data)
  /\ (err <> None <->
      snd (json_Marshal params) <> None
      \/ snd sending <> None
      \/ snd (snd receiving) <> None
      \/ (forall m, res <> rpc.Map m))
  /\ (forall e, snd (json_Marshal params) = Some e ->
        err = Some e /\ value = None /\ self' = self)
  /\ (snd (json_Marshal params) = None ->
      rpc.reqId self' = rpc.Id req
      /\ (forall e, snd sending = Some e ->
            err = Some e /\ value = None /\ rpc.client self' = fst sending)
      /\ (snd sending = None ->
          rpc.client self' = fst receiving
          /\ (forall e, snd (snd receiving) = Some e ->
                err = Some e /\ value = None)
          /\ (snd (snd receiving) = None ->
              (forall m, res = rpc.Map m -> value = Some m /\ err = None)
              /\ ((forall m, res <> rpc.Map m) ->
                  value = None
                  /\ err = Some (errorString
                       ("Invalid response type: have " ++ rpc.TypeOf res
                        ++ ", want map[string]interface {}"))))))
  /\ (err = None -> exists m, res = rpc.Map m /\ value = Some m).
Proof.
  unfold rpc.Call, rpc.request_of, rpc.invalid_response_type,
    GoInt.add_uint32.
  destruct (json_Marshal params) as [data [em | ]]; simpl;
    [ | destruct (rpc.Send (rpc.client self) _) as [c1 [es | ]]; simpl;
        [ | destruct (rpc.Recv c1) as [c2 [res [er | ]]]; simpl;
            [ | destruct res; simpl ] ] ].
  all: repeat split; intros; subst; try discriminate; try congruence.
  all: try (match goal with
            | H : Some _ = Some _ |- _ => inversion H; subst; reflexivity
            end).
  all: try solve [ left; discriminate
                 | right; left; discriminate
                 | right; right; left; discriminate
                 | right; right; right; intros; discriminate ].
  all: try solve [ eexists; split; reflexivity ].
  all: try (match goal with
            | H : forall m, rpc.Map ?e <> rpc.Map m |- _ =>
                now destruct (H e)
            end).
  match goal with
  | H : _ \/ _ |- _ => destruct H as [H | [H | [H | H]]]; try congruence
  end.
  intros _. now destruct (H entries).
Qed.

Lemma Call_contract_witness :
  let link := {| Scripted.link_down := false; Scripted.sent := [];
                 Scripted.inbox :=
                   [(rpc.Map [("result", rpc.String "0x10")], None)] |} in
  let x := rpc.NewXeth link in
  snd (rpc.Call Scripted.marshal x "eth_blockNumber" [])
    = (Some [("result", rpc.String "0x10")], None)
  /\ Scripted.sent (rpc.client (fst (rpc.Call Scripted.marshal x
                                       "eth_blockNumber" [])))
     = [{| rpc.Id := 1; rpc.Jsonrpc := "2.0";
           rpc.Method := "eth_blockNumber"; rpc.Params := [x5b; x5d] |}].
Proof.
  intros link x.
  pose proof (Call_contract Scripted.Client Scripted.client Scripted.marshal
                x "eth_blockNumber" []) as H.
  destruct (rpc.Call Scripted.marshal x "eth_blockNumber" [])
    as [self' [value err]] eqn:Hcall.
  destruct H as (_ & _ & _ & Hsent & _).
  destruct (Hsent eq_refl) as (_ & _ & Hrecv).
  destruct (Hrecv eq_refl) as (Hclient & _ & Hmap).
  destruct (Hmap eq_refl) as (Hvalue & _).
  destruct (Hvalue [("result", rpc.String "0x10")] eq_refl) as [Hv He].
  simpl. rewrite Hv, He, Hclient. split; reflexivity.
Defined.

(* ================================================================== *)
(** ** Properties: construction *)

(** Turns the boolean tests met along a path of [New] into facts. *)
Ltac tests_to_facts :=
  repeat match goal with
    | H : andb _ _ = true |- _ => apply andb_true_iff in H; destruct H
    | H : andb _ _ = false |- _ => apply andb_false_iff in H; destruct H
    | H : negb _ = true |- _ => apply negb_true_iff in H
    | H : negb _ = false |- _ => apply negb_false_iff in H
    | H : (_ =? _)%Z = true |- _ => apply Z.eqb_eq in H
    | H : (_ =? _)%Z = false |- _ => apply Z.eqb_neq in H
    end.

(** Picks the entry of a concrete call list that a goal asks for. *)
Ltac pick_entry :=
  repeat eexists; simpl; repeat (first [left; reflexivity | right]).

Ltac finish_New :=
  simpl; rewrite <- ?app_assoc, ?new_calls_app; simpl; tests_to_facts;
  repeat split; intros; subst;
  try congruence; try lia;
  try solve [intuition (try congruence; try lia)];
  try solve [pick_entry].

(** C5.  Unless the schema-version check is skipped, a stored version
    that differs from the expected one and is not 0 makes [New] fail,
    whatever the other steps do, and leaves the database as it was.  When
    construction comes to the check (the database opened, genesis
    resolution did not fail fatally, the bloom bins were added), the error
    is the one that names the stored and the expected version and says to
    run [gexp upgradedb], and the chain store is not constructed; a stored
    version equal to the expected one, or 0, lets construction go on to
    the chain store with the expected version stamped into the database.
    When the check is skipped the stored version is left as it is and
    construction goes on. *)
Theorem schema_version_check (X : eth.Collaborators)
  (ctx : node.ServiceContext) (config : eth.Config.t) (w : eth.World) :
  let db := eth.chaindata w in
  let stored := eth.stored_version db in
  let expected := eth.BlockChainVersion X in
  let w' := snd (eth.New X ctx config w) in
  (eth.Config.SkipBcVersionCheck config = false ->
   stored <> expected -> stored <> 0 ->
   (exists e, fst (eth.New X ctx config w) = eth.fail e)
   /\ eth.chaindata w' = db)
  /\ (eth.OpenDatabase X "chaindata" (eth.Config.DatabaseCache config)
        (eth.Config.DatabaseHandles config) = None ->
      (forall e,
         snd (eth.SetupGenesisBlock X db (eth.Config.Genesis config))
           = Some e ->
         exists text R, e = ConfigCompatError text R) ->
      eth.addMipmapBloomBins X db = None ->
      (eth.Config.SkipBcVersionCheck config = false ->
       stored <> expected -> stored <> 0 ->
       fst (eth.New X ctx config w)
         = eth.fail (eth.version_mismatch stored expected)
       /\ Error (eth.version_mismatch stored expected)
          = "Blockchain DB version mismatch (" ++ GoInt.fmt_d stored
            ++ " / " ++ GoInt.fmt_d expected ++ "). Run gexp upgradedb."
            ++ String (ascii_of_nat 10) ""
       /\ eth.chaindata w' = db
       /\ forall cfg err,
            ~ In (eth.call_NewBlockChain cfg, err) (new_calls w w'))
      /\ (eth.Config.SkipBcVersionCheck config = false ->
          stored = expected \/ stored = 0 ->
          eth.stored_version (eth.chaindata w') = expected
          /\ In (eth.call_WriteBlockChainVersion expected, None)
                (new_calls w w')
          /\ exists cfg err,
               In (eth.call_NewBlockChain cfg, err) (new_calls w w'))
      /\ (eth.Config.SkipBcVersionCheck config = true ->
          eth.stored_version (eth.chaindata w') = stored
          /\ exists cfg err,
               In (eth.call_NewBlockChain cfg, err) (new_calls w w'))).
Proof.
  intros db stored expected w'. subst w' db stored expected.
  split.
  { intros Hskip Hne H0. revert Hne H0.
    step_New. rewrite Hskip.
    split_New; finish_New; eauto. }
  intros Hopen Hgen Hmip.
  split.
  { intros Hskip Hne H0.
    split; [ | split; [reflexivity | ]]; revert Hne H0.
    all: step_New; rewrite Hopen; simpl; rewrite Hmip, Hskip.
    all: destruct (eth.SetupGenesisBlock X (eth.chaindata w)
                     (eth.Config.Genesis config)) as [[cfg h] gerr].
    all: simpl in Hgen.
    all: destruct gerr as [[msg | text R] | ];
      [ destruct (Hgen _ eq_refl) as (text & R & Habs); discriminate Habs
      | | ]; clear Hgen.
    all: split_New; finish_New. }
  split.
  { intros Hskip Hv. revert Hv.
    step_New; rewrite Hopen; simpl; rewrite Hmip, Hskip.
    destruct (eth.SetupGenesisBlock X (eth.chaindata w)
                (eth.Config.Genesis config)) as [[cfg h] gerr].
    simpl in Hgen.
    destruct gerr as [[msg | text R] | ];
      [ destruct (Hgen _ eq_refl) as (text & R & Habs); discriminate Habs
      | | ]; clear Hgen.
    all: split_New; finish_New. }
  intros Hskip.
  step_New; rewrite Hopen; simpl; rewrite Hmip, Hskip.
  destruct (eth.SetupGenesisBlock X (eth.chaindata w)
              (eth.Config.Genesis config)) as [[cfg h] gerr].
  simpl in Hgen.
  destruct gerr as [[msg | text R] | ];
    [ destruct (Hgen _ eq_refl) as (text & R & Habs); discriminate Habs
    | | ]; clear Hgen.
  all: split_New; finish_New.
Qed.

Lemma schema_version_check_witness :
  let X := Sample.collaborators None 100 Sample.no_step in
  fst (eth.New X Sample.ctx (Sample.config 50 40 25) (Sample.world 2))
    = eth.fail (errorString
        ("Blockchain DB version mismatch (2 / 3). Run gexp upgradedb."
         ++ String (ascii_of_nat 10) ""))
  /\ eth.stored_version
       (eth.chaindata
          (snd (eth.New X Sample.ctx (Sample.config 50 40 25)
                  (Sample.world 0)))) = 3.
Proof.
  intros X. split.
  - assert (Hreach : forall e,
              snd (eth.SetupGenesisBlock X (eth.chaindata (Sample.world 2))
                     (eth.Config.Genesis (Sample.config 50 40 25))) = Some e ->
              exists text R, e = ConfigCompatError text R).
    { intros e He. simpl in He. discriminate He. }
    exact (proj1 (proj1 (proj2 (schema_version_check X Sample.ctx
                                  (Sample.config 50 40 25) (Sample.world 2))
                           eq_refl Hreach eq_refl)
                    eq_refl ltac:(simpl; lia) ltac:(simpl; lia))).
  - assert (Hreach : forall e,
              snd (eth.SetupGenesisBlock X (eth.chaindata (Sample.world 0))
                     (eth.Config.Genesis (Sample.config 50 40 25))) = Some e ->
              exists text R, e = ConfigCompatError text R).
    { intros e He. simpl in He. discriminate He. }
    exact (proj1 (proj1 (proj2 (proj2 (schema_version_check X Sample.ctx
                                  (Sample.config 50 40 25) (Sample.world 0))
                                  eq_refl Hreach eq_refl))
                    eq_refl (or_intror eq_refl))).
Defined.

Lemma Hash_eqb_refl (h : common.Hash) : common.Hash_eqb h h = true.
Proof.
  unfold common.Hash_eqb.
  destruct (list_eq_dec byte_eq_dec h h); congruence.
Qed.

(** C3.  A configuration-compatibility condition with rewind target [R]
    from genesis resolution is not fatal: whatever the later steps do,
    construction goes on past genesis resolution to the bloom bins, and
    with the steps around it succeeding (the database opens, the bloom bins are
    added, the schema-version check passes or is skipped, the chain store
    and the protocol manager are constructed) [New] returns the node;
    after the chain store is constructed the chain is rewound, so that its
    head is at height [R] or below, and then the new chain configuration
    is stored under the genesis hash.  Any other non-nil genesis error is
    fatal: [New] returns that error and no node, and constructs
    nothing. *)
Theorem compat_rewind (X : eth.Collaborators) (ctx : node.ServiceContext)
  (config : eth.Config.t) (w : eth.World)
  (cfg : params.ChainConfig) (h : common.Hash) (gerr : option error) :
  let db := eth.chaindata w in
  let w' := snd (eth.New X ctx config w) in
  let trace := map fst (new_calls w w') in
  eth.OpenDatabase X "chaindata" (eth.Config.DatabaseCache config)
    (eth.Config.DatabaseHandles config) = None ->
  eth.SetupGenesisBlock X db (eth.Config.Genesis config) = (cfg, h, gerr) ->
  (forall text R bc,
     gerr = Some (ConfigCompatError text R) ->
     eth.addMipmapBloomBins X db = None ->
     (eth.Config.SkipBcVersionCheck config = true
      \/ eth.stored_version db = eth.BlockChainVersion X
      \/ eth.stored_version db = 0) ->
     eth.NewBlockChain X (after_version_check X config db) cfg
       = (bc, None) ->
     eth.NewProtocolManager X cfg (eth.Config.FastSync config)
       (eth.Config.NetworkId config) (eth.maxPeers config) = None ->
     (exists s,
        fst (eth.New X ctx config w) = eth.ok s
        /\ eth.blockchain s = eth.SetHead bc R
        /\ eth.currentBlock (eth.blockchain s) <= R)
     /\ eth.GetChainConfig (eth.stored_config (eth.chaindata w')) h
        = Some cfg
     /\ before (eth.call_NewBlockChain cfg) (eth.call_blockchain_SetHead R)
          trace
     /\ before (eth.call_blockchain_SetHead R)
          (eth.call_WriteChainConfig h cfg) trace)
  /\ (forall msg,
        gerr = Some (errorString msg) ->
        fst (eth.New X ctx config w) = eth.fail (errorString msg)
        /\ eth.chaindata w' = db
        /\ trace = [eth.call_OpenDatabase "chaindata"
                      (eth.Config.DatabaseCache config)
                      (eth.Config.DatabaseHandles config);
                    eth.call_upgradeSequentialKeys;
                    eth.call_SetupGenesisBlock (eth.Config.Genesis config)])
  /\ (forall text R,
        gerr = Some (ConfigCompatError text R) ->
        exists err,
          In (eth.call_addMipmapBloomBins, err) (new_calls w w')).
Proof.
  intros db w' trace Hopen Hgen. subst db w' trace. split; [ | split].
  - intros text R bc Hg Hmip Hcheck Hbc Hpm. subst gerr.
    unfold after_version_check in Hbc.
    assert (Hhead : eth.currentBlock (eth.SetHead bc R) <= R).
    { unfold eth.SetHead. simpl. lia. }
    step_New. rewrite Hopen. simpl. rewrite Hgen. simpl. rewrite Hmip.
    destruct (eth.Config.SkipBcVersionCheck config); simpl.
    + rewrite Hbc. simpl. rewrite Hpm. simpl.
      rewrite <- ?app_assoc, new_calls_app. simpl.
      rewrite Hash_eqb_refl.
      split; [eexists; split; [reflexivity | split; [reflexivity | exact Hhead]] | ].
      split; [reflexivity | ].
      split; split_at_before.
    + destruct Hcheck as [Habs | Hv]; [discriminate Habs | ].
      assert (Htest : negb (eth.stored_version (eth.chaindata w)
                            =? eth.BlockChainVersion X)%Z
                      && negb (eth.stored_version (eth.chaindata w) =? 0)%Z
                      = false).
      { destruct Hv as [Hv | Hv]; rewrite Hv.
        - now rewrite Z.eqb_refl.
        - apply andb_false_iff. right. reflexivity. }
      rewrite Htest. simpl. rewrite Hbc. simpl. rewrite Hpm. simpl.
      rewrite <- ?app_assoc, new_calls_app. simpl.
      rewrite Hash_eqb_refl.
      split; [eexists; split; [reflexivity | split; [reflexivity | exact Hhead]] | ].
      split; [reflexivity | ].
      split; split_at_before.
  - intros msg Hg. subst gerr.
    step_New. rewrite Hopen. simpl. rewrite Hgen. simpl.
    rewrite <- ?app_assoc, new_calls_app. simpl.
    repeat split.
  - intros text R Hg. subst gerr.
    step_New. rewrite Hopen. simpl. rewrite Hgen. simpl.
    split_New; simpl; rewrite <- ?app_assoc, new_calls_app;
      eexists; simpl; repeat (first [left; reflexivity | right]).
Qed.

Lemma compat_rewind_witness :
  let X := Sample.collaborators
             (Some (ConfigCompatError "mismatching DAO fork block" 50))
             100 Sample.no_step in
  let w := Sample.world 3 in
  (exists s,
     fst (eth.New X Sample.ctx (Sample.config 50 40 25) w) = eth.ok s
     /\ eth.currentBlock (eth.blockchain s) <= 50)
  /\ eth.GetChainConfig
       (eth.stored_config
          (eth.chaindata
             (snd (eth.New X Sample.ctx (Sample.config 50 40 25) w))))
       [x2a] = Some 7%N.
Proof.
  intros X w.
  destruct (proj1 (compat_rewind X Sample.ctx (Sample.config 50 40 25) w
                     7%N [x2a]
                     (Some (ConfigCompatError "mismatching DAO fork block" 50))
                     eq_refl eq_refl)
              "mismatching DAO fork block" 50 {| eth.currentBlock := 100 |}
              eq_refl eq_refl (or_intror (or_introl eq_refl))
              eq_refl eq_refl)
    as ((s & Hs & _ & Hhead) & Hcfg & _).
  split; [exists s; split; [exact Hs | exact Hhead] | exact Hcfg].
Defined.

(* ================================================================== *)
(** ** Further properties: construction *)

(** Splits [New] into its paths, with the tests and answers met along
    each path as facts. *)
Ltac paths_of_New :=
  split_New; simpl in *; tests_to_facts; subst; try discriminate;
  repeat match goal with
    | H1 : ?t = (_, _), H2 : context [?t] |- _ =>
        rewrite H1 in H2; simpl in H2
    | H1 : eth.NewProtocolManager ?X ?a ?b ?c ?d = _
      |- context [eth.NewProtocolManager ?X ?a ?b ?c ?d] => rewrite H1
    end.

(** X1.  [New] returns a node exactly when no step fails, and otherwise
    returns the error of the first step that fails, in the order database
    opening, genesis resolution (unless the error is a compatibility
    condition), bloom bins, schema-version check, chain store, protocol
    manager. *)
Theorem New_outcome (X : eth.Collaborators) (ctx : node.ServiceContext)
  (config : eth.Config.t) (w : eth.World) :
  (forall e,
     fst (eth.New X ctx config w) = eth.fail e
     <-> first_failure X config (eth.chaindata w) = Some e)
  /\ ((exists s, fst (eth.New X ctx config w) = eth.ok s)
      <-> first_failure X config (eth.chaindata w) = None).
Proof.
  unfold first_failure, after_version_check.
  step_New.
  split; [intros e | ].
  all: paths_of_New.
  all: try solve [ split; intros Hx;
                   try (inversion Hx; subst; clear Hx);
                   try congruence; try lia; eauto ].
  all: solve [ split; [intros [s' Hs]; congruence | congruence] ].
Qed.

Lemma New_outcome_witness :
  let X := Sample.collaborators None 100 Sample.no_step in
  fst (eth.New X Sample.ctx (Sample.config 50 40 25) (Sample.world 2))
    = eth.fail (eth.version_mismatch 2 3)
  /\ exists s,
       fst (eth.New X Sample.ctx (Sample.config 50 40 25) (Sample.world 3))
         = eth.ok s.
Proof.
  intros X. split.
  - exact (proj2 (proj1 (New_outcome X Sample.ctx (Sample.config 50 40 25)
                           (Sample.world 2)) (eth.version_mismatch 2 3))
             eq_refl).
  - exact (proj2 (proj2 (New_outcome X Sample.ctx (Sample.config 50 40 25)
                           (Sample.world 3))) eq_refl).
Defined.

(** X2.  A construction that goes through makes its calls in one fixed
    order: database, key upgrade, genesis, bloom bins, the version stamp
    unless the check is skipped, chain store, the rewind and the
    configuration write when genesis reported a compatibility condition,
    transaction pool, protocol manager, miner with its gas price and extra
    data, gas-price oracle. *)
Theorem New_construction_order (X : eth.Collaborators)
  (ctx : node.ServiceContext) (config : eth.Config.t) (w : eth.World)
  (s : eth.Ethereum) :
  fst (eth.New X ctx config w) = eth.ok s ->
  map fst (new_calls w (snd (eth.New X ctx config w)))
    = construction_order X config (eth.chaindata w).
Proof.
  unfold construction_order. step_New. paths_of_New.
  all: intros Hs; try discriminate Hs.
  all: rewrite <- ?app_assoc, new_calls_app; reflexivity.
Qed.

Lemma New_construction_order_witness :
  let X := Sample.collaborators
             (Some (ConfigCompatError "mismatching DAO fork block" 50))
             100 Sample.no_step in
  map fst (new_calls (Sample.world 0)
             (snd (eth.New X Sample.ctx (Sample.config 50 40 25)
                     (Sample.world 0))))
  = [eth.call_OpenDatabase "chaindata" 128 1024;
     eth.call_upgradeSequentialKeys;
     eth.call_SetupGenesisBlock None;
     eth.call_addMipmapBloomBins;
     eth.call_WriteBlockChainVersion 3;
     eth.call_NewBlockChain 7%N;
     eth.call_blockchain_SetHead 50;
     eth.call_WriteChainConfig [x2a] 7%N;
     eth.call_NewTxPool;
     eth.call_NewProtocolManager false 2 25;
     eth.call_miner_New;
     eth.call_miner_SetGasPrice 20;
     eth.call_miner_SetExtra [];
     eth.call_NewGasPriceOracle].
Proof.
  intros X.
  let r := eval vm_compute in
             (fst (eth.New X Sample.ctx (Sample.config 50 40 25)
                     (Sample.world 0))) in
  lazymatch r with
  | eth.ok ?s =>
      exact (New_construction_order X Sample.ctx (Sample.config 50 40 25)
               (Sample.world 0) s eq_refl)
  end.
Defined.

(** X3.  After a failure [New] calls nothing further: the last call it
    made is the one whose error it returns; only the schema-version
    mismatch is raised by [New] itself, right after the bloom bins were
    added. *)
Theorem New_stops_at_failure (X : eth.Collaborators)
  (ctx : node.ServiceContext) (config : eth.Config.t) (w : eth.World)
  (e : error) :
  fst (eth.New X ctx config w) = eth.fail e ->
  let made := new_calls w (snd (eth.New X ctx config w)) in
  (exists c earlier, made = (earlier ++ [(c, Some e)])%list)
  \/ (e = eth.version_mismatch (eth.stored_version (eth.chaindata w))
            (eth.BlockChainVersion X)
      /\ exists earlier,
           made = (earlier ++ [(eth.call_addMipmapBloomBins, None)])%list).
Proof.
  step_New. paths_of_New.
  all: intros He; inversion He; subst; clear He.
  all: rewrite <- ?app_assoc, new_calls_app.
  all: first
    [ left; eexists; exists []; reflexivity
    | left; eexists; eexists [_]; reflexivity
    | left; eexists; eexists [_; _]; reflexivity
    | left; eexists; eexists [_; _; _]; reflexivity
    | left; eexists; eexists [_; _; _; _]; reflexivity
    | left; eexists; eexists [_; _; _; _; _]; reflexivity
    | left; eexists; eexists [_; _; _; _; _; _]; reflexivity
    | left; eexists; eexists [_; _; _; _; _; _; _]; reflexivity
    | left; eexists; eexists [_; _; _; _; _; _; _; _]; reflexivity
    | left; eexists; eexists [_; _; _; _; _; _; _; _; _]; reflexivity
    | right; split; [reflexivity | eexists [_; _; _]; reflexivity] ].
Qed.

Lemma New_stops_at_failure_witness :
  let X := Sample.collaborators (Some (errorString "genesis mismatch")) 100
             Sample.no_step in
  exists c earlier,
    new_calls (Sample.world 3)
      (snd (eth.New X Sample.ctx (Sample.config 50 40 25) (Sample.world 3)))
    = (earlier ++ [(c, Some (errorString "genesis mismatch"))])%list.
Proof.
  intros X.
  destruct (New_stops_at_failure X Sample.ctx (Sample.config 50 40 25)
              (Sample.world 3) (errorString "genesis mismatch") eq_refl)
    as [H | [H _]]; [exact H | discriminate H].
Defined.

(** X4.  [New] never replaces a stored schema version by a different one:
    afterwards the database holds the version it held before, unless that
    was 0 and the check was not skipped, in which case it holds the
    expected version.  The stored chain configurations stay as they were
    or gain the one entry written for a compatibility condition. *)
Theorem New_keeps_schema_version (X : eth.Collaborators)
  (ctx : node.ServiceContext) (config : eth.Config.t) (w : eth.World) :
  let db := eth.chaindata w in
  let db' := eth.chaindata (snd (eth.New X ctx config w)) in
  (eth.stored_version db' = eth.stored_version db
   \/ (eth.stored_version db = 0
       /\ eth.Config.SkipBcVersionCheck config = false
       /\ eth.stored_version db' = eth.BlockChainVersion X))
  /\ (eth.stored_config db' = eth.stored_config db
      \/ exists text R,
           snd (eth.SetupGenesisBlock X db (eth.Config.Genesis config))
             = Some (ConfigCompatError text R)
           /\ eth.stored_config db'
              = (snd (fst (eth.SetupGenesisBlock X db
                             (eth.Config.Genesis config))),
                 fst (fst (eth.SetupGenesisBlock X db
                             (eth.Config.Genesis config))))
                :: eth.stored_config db).
Proof.
  step_New. paths_of_New.
  all: split; [ first [ left; reflexivity | left; congruence
                      | right; repeat split; congruence ]
              | first [ left; reflexivity
                      | right; eexists; eexists; split; reflexivity ] ].
Qed.

(** X5.  Without a compatibility condition from genesis resolution [New]
    never rewinds: it calls neither [SetHead] nor [WriteChainConfig], the
    stored chain configurations stay as they were, and the node it returns
    holds the chain exactly as [NewBlockChain] built it. *)
Theorem New_rewinds_only_on_compat (X : eth.Collaborators)
  (ctx : node.ServiceContext) (config : eth.Config.t) (w : eth.World) :
  let db := eth.chaindata w in
  let w' := snd (eth.New X ctx config w) in
  asConfigCompatError
    (snd (eth.SetupGenesisBlock X db (eth.Config.Genesis config))) = None ->
  (forall R err,
     ~ In (eth.call_blockchain_SetHead R, err) (new_calls w w'))
  /\ (forall h cfg err,
        ~ In (eth.call_WriteChainConfig h cfg, err) (new_calls w w'))
  /\ eth.stored_config (eth.chaindata w') = eth.stored_config db
  /\ (forall s,
        fst (eth.New X ctx config w) = eth.ok s ->
        eth.blockchain s
        = fst (eth.NewBlockChain X (after_version_check X config db)
                 (fst (fst (eth.SetupGenesisBlock X db
                              (eth.Config.Genesis config)))))).
Proof.
  unfold after_version_check. step_New. paths_of_New.
  all: intros Hg; try discriminate Hg.
  all: rewrite <- ?app_assoc, ?new_calls_app; simpl.
  all: repeat split; try reflexivity.
  all: try (intros ? ? ?; intuition congruence).
  all: try (intros ? ?; intuition congruence).
  all: intros s0 Hs; inversion Hs; subst; try reflexivity.
  all: repeat match goal with
         | H : ?t = (_, _) |- context [?t] => rewrite H
         end; reflexivity.
Qed.

Lemma New_rewinds_only_on_compat_witness :
  let X := Sample.collaborators None 100 Sample.no_step in
  exists s,
    fst (eth.New X Sample.ctx (Sample.config 50 40 25) (Sample.world 3))
      = eth.ok s
    /\ eth.currentBlock (eth.blockchain s) = 100.
Proof.
  intros X.
  destruct (New_rewinds_only_on_compat X Sample.ctx (Sample.config 50 40 25)
              (Sample.world 3) eq_refl) as (_ & _ & _ & Hbc).
  let r := eval vm_compute in
             (fst (eth.New X Sample.ctx (Sample.config 50 40 25)
                     (Sample.world 3))) in
  lazymatch r with
  | eth.ok ?s =>
      exists s; split; [reflexivity | rewrite (Hbc s eq_refl); reflexivity]
  end.
Defined.

(** X6.  Construction is not undone when it fails late.  When the chain
    store cannot be constructed on a fresh database, [New] returns the
    error and the schema version it stamped stays; when the protocol
    manager cannot be constructed after a compatibility condition, [New]
    returns the error and no node, and the rewind it made and the chain
    configuration it wrote stay, with the version check skipped or
    passed alike. *)
Theorem New_failure_keeps_effects (X : eth.Collaborators)
  (ctx : node.ServiceContext) (config : eth.Config.t) (w : eth.World)
  (cfg : params.ChainConfig) (h : common.Hash) (gerr : option error)
  (bc : eth.BlockChain) (e : error) :
  let db := eth.chaindata w in
  let w' := snd (eth.New X ctx config w) in
  eth.OpenDatabase X "chaindata" (eth.Config.DatabaseCache config)
    (eth.Config.DatabaseHandles config) = None ->
  eth.SetupGenesisBlock X db (eth.Config.Genesis config) = (cfg, h, gerr) ->
  (forall msg, gerr <> Some (errorString msg)) ->
  eth.addMipmapBloomBins X db = None ->
  (eth.Config.SkipBcVersionCheck config = false ->
   eth.stored_version db = 0 ->
   eth.NewBlockChain X (after_version_check X config db) cfg
     = (bc, Some e) ->
   fst (eth.New X ctx config w) = eth.fail e
   /\ eth.stored_version (eth.chaindata w') = eth.BlockChainVersion X)
  /\ (forall text R,
        gerr = Some (ConfigCompatError text R) ->
        (eth.Config.SkipBcVersionCheck config = true
         \/ eth.stored_version db = eth.BlockChainVersion X
         \/ eth.stored_version db = 0) ->
        eth.NewBlockChain X (after_version_check X config db) cfg
          = (bc, None) ->
        eth.NewProtocolManager X cfg (eth.Config.FastSync config)
          (eth.Config.NetworkId config) (eth.maxPeers config) = Some e ->
        fst (eth.New X ctx config w) = eth.fail e
        /\ eth.GetChainConfig (eth.stored_config (eth.chaindata w')) h
           = Some cfg
        /\ In (eth.call_blockchain_SetHead R, None) (new_calls w w')
        /\ In (eth.call_WriteChainConfig h cfg, None) (new_calls w w')
        /\ (eth.Config.SkipBcVersionCheck config = false ->
            eth.stored_version (eth.chaindata w')
            = eth.BlockChainVersion X)).
Proof.
  intros db w' Hopen Hgen Hfatal Hmip. subst db w'.
  unfold after_version_check. split.
  - intros Hskip Hzero Hbc. rewrite Hskip in Hbc.
    step_New. rewrite Hopen. simpl. rewrite Hgen. simpl. rewrite Hmip.
    rewrite Hskip.
    destruct gerr as [[msg | text R] | ];
      [ now destruct (Hfatal msg) | | ]; simpl; rewrite Hzero.
    + replace (negb (0 =? eth.BlockChainVersion X)%Z && negb (0 =? 0)%Z)
        with false by (now rewrite andb_false_r).
      simpl. rewrite Hbc. simpl. split; reflexivity.
    + replace (negb (0 =? eth.BlockChainVersion X)%Z && negb (0 =? 0)%Z)
        with false by (now rewrite andb_false_r).
      simpl. rewrite Hbc. simpl. split; reflexivity.
  - intros text R Hg Hcheck Hbc Hpm. subst gerr.
    step_New. rewrite Hopen. simpl. rewrite Hgen. simpl. rewrite Hmip.
    destruct (eth.Config.SkipBcVersionCheck config); simpl.
    + rewrite Hbc. simpl. rewrite Hpm. simpl.
      rewrite Hash_eqb_refl. rewrite <- ?app_assoc, new_calls_app. simpl.
      repeat split; try tauto. discriminate.
    + destruct Hcheck as [Habs | Hv]; [discriminate Habs | ].
      assert (Htest : negb (eth.stored_version (eth.chaindata w)
                            =? eth.BlockChainVersion X)%Z
                      && negb (eth.stored_version (eth.chaindata w) =? 0)%Z
                      = false).
      { destruct Hv as [Hv | Hv]; rewrite Hv.
        - now rewrite Z.eqb_refl.
        - apply andb_false_iff. right. reflexivity. }
      rewrite Htest. simpl. rewrite Hbc. simpl. rewrite Hpm. simpl.
      rewrite Hash_eqb_refl. rewrite <- ?app_assoc, new_calls_app. simpl.
      repeat split; tauto.
Qed.

Lemma New_failure_keeps_effects_witness :
  let X := {| eth.BlockChainVersion := 3;
              eth.OpenDatabase := fun _ _ _ => None;
              eth.upgradeSequentialKeys := fun _ => false;
              eth.SetupGenesisBlock := fun _ _ => (7%N, [x2a], None);
              eth.addMipmapBloomBins := fun _ => None;
              eth.NewBlockChain :=
                fun _ _ => ({| eth.currentBlock := 0 |},
                            Some (errorString "no genesis block"));
              eth.NewProtocolManager := fun _ _ _ _ => None;
              eth.teardown_error := fun _ => None |} in
  let Y := {| eth.BlockChainVersion := 3;
              eth.OpenDatabase := fun _ _ _ => None;
              eth.upgradeSequentialKeys := fun _ => false;
              eth.SetupGenesisBlock :=
                fun _ _ => (7%N, [x2a],
                            Some (ConfigCompatError "fork block" 50));
              eth.addMipmapBloomBins := fun _ => None;
              eth.NewBlockChain :=
                fun _ _ => ({| eth.currentBlock := 100 |}, None);
              eth.NewProtocolManager :=
                fun _ _ _ _ => Some (errorString "bad network id");
              eth.teardown_error := fun _ => None |} in
  let config := Sample.config 50 40 25 in
  (fst (eth.New X Sample.ctx config (Sample.world 0))
     = eth.fail (errorString "no genesis block")
   /\ eth.stored_version
        (eth.chaindata (snd (eth.New X Sample.ctx config (Sample.world 0))))
      = 3)
  /\ (fst (eth.New Y Sample.ctx config (Sample.world 3))
        = eth.fail (errorString "bad network id")
      /\ eth.GetChainConfig
           (eth.stored_config
              (eth.chaindata
                 (snd (eth.New Y Sample.ctx config (Sample.world 3)))))
           [x2a] = Some 7%N
      /\ In (eth.call_blockchain_SetHead 50, None)
            (new_calls (Sample.world 3)
               (snd (eth.New Y Sample.ctx config (Sample.world 3))))).
Proof.
  intros X Y config. split.
  - exact (proj1 (New_failure_keeps_effects X Sample.ctx config
                    (Sample.world 0)
                    7%N [x2a] None {| eth.currentBlock := 0 |}
                    (errorString "no genesis block")
                    eq_refl eq_refl ltac:(intros msg; discriminate) eq_refl)
             eq_refl eq_refl eq_refl).
  - destruct (proj2 (New_failure_keeps_effects Y Sample.ctx config
                       (Sample.world 3)
                       7%N [x2a] (Some (ConfigCompatError "fork block" 50))
                       {| eth.currentBlock := 100 |}
                       (errorString "bad network id")
                       eq_refl eq_refl ltac:(intros msg; discriminate)
                       eq_refl)
                "fork block" 50 eq_refl (or_intror (or_introl eq_refl))
                eq_refl eq_refl)
      as (Hfail & Hcfg & Hhead & _).
    split; [exact Hfail | ]. split; [exact Hcfg | exact Hhead].
Defined.

(* ================================================================== *)
(** ** Further properties: life cycle *)

Lemma New_settings (X : eth.Collaborators) (ctx : node.ServiceContext)
  (config : eth.Config.t) (w : eth.World) (s : eth.Ethereum) :
  fst (eth.New X ctx config w) = eth.ok s ->
  eth.netVersionId s = eth.Config.NetworkId config
  /\ eth.stopDbUpgrade s = eth.upgradeSequentialKeys X (eth.chaindata w)
  /\ eth.shutdownChan s = eth.chan_open
  /\ eth.lesServer s = None.
Proof.
  step_New. split_New; simpl; intros Hs; inversion Hs; simpl; auto.
Qed.

(** X7.  A node returned by [New] goes through one start and one stop:
    [Start] announces the configured network id, starts the protocol
    manager and nothing else, and returns nil; [WaitForShutdown] blocks
    until [Stop]; [Stop] halts the key upgrade exactly when
    [upgradeSequentialKeys] handed back a stop function, never calls a
    light server, returns nil without a panic, and releases the waiters. *)
Theorem node_life_cycle (X : eth.Collaborators) (ctx : node.ServiceContext)
  (config : eth.Config.t) (w : eth.World) (s : eth.Ethereum) :
  fst (eth.New X ctx config w) = eth.ok s ->
  (forall w1,
     fst (eth.Start s w1) = None
     /\ new_calls w1 (snd (eth.Start s w1))
        = [(eth.call_NewPublicNetAPI (eth.Config.NetworkId config), None);
           (eth.call_protocolManager_Start, None)])
  /\ eth.WaitForShutdown s = None
  /\ (forall w2,
        fst (fst (eth.Stop X s w2)) = eth.returned None
        /\ eth.WaitForShutdown (snd (fst (eth.Stop X s w2))) = Some tt
        /\ map fst (new_calls w2 (snd (eth.Stop X s w2)))
           = ((if eth.upgradeSequentialKeys X (eth.chaindata w)
               then [eth.call_stopDbUpgrade] else [])
              ++ [eth.call_blockchain_Stop; eth.call_protocolManager_Stop;
                  eth.call_txPool_Stop; eth.call_miner_Stop;
                  eth.call_eventMux_Stop; eth.call_chainDb_Close;
                  eth.call_close_shutdownChan])%list).
Proof.
  intros Hs.
  destruct (New_settings X ctx config w s Hs) as (Hnet & Hup & Hopen & Hles).
  split; [ | split].
  - intros w1. unfold eth.Start, eth.NetVersion, eth.record.
    rewrite Hles, Hnet. simpl. split; [reflexivity | ].
    rewrite <- app_assoc. apply new_calls_app.
  - unfold eth.WaitForShutdown. now rewrite Hopen.
  - intros w2. rewrite (Stop_trace X s w2 Hopen).
    destruct (Stop_open X s w2 Hopen) as (w3 & HS & _ & _).
    rewrite HS. simpl. split; [reflexivity | ]. split; [reflexivity | ].
    unfold teardown_order. now rewrite Hles, Hup.
Qed.

Lemma node_life_cycle_witness :
  let X := Sample.collaborators None 100 Sample.no_step in
  exists s,
    fst (eth.New X Sample.ctx (Sample.config 50 40 25) (Sample.world 3))
      = eth.ok s
    /\ eth.WaitForShutdown s = None
    /\ eth.WaitForShutdown (snd (fst (eth.Stop X s (Sample.world 3))))
       = Some tt.
Proof.
  intros X.
  let r := eval vm_compute in
             (fst (eth.New X Sample.ctx (Sample.config 50 40 25)
                     (Sample.world 3))) in
  lazymatch r with
  | eth.ok ?s =>
      exists s; split; [reflexivity | ];
      destruct (node_life_cycle X Sample.ctx (Sample.config 50 40 25)
                  (Sample.world 3) s eq_refl) as (_ & Hwait & Hstop);
      destruct (Hstop (Sample.world 3)) as (_ & Hdone & _);
      split; [exact Hwait | exact Hdone]
  end.
Defined.

(** X8.  [Stop] is not repeatable: on a node whose shutdown channel is
    already closed, as [Stop] leaves it, a further [Stop] runs every
    teardown call again, the closing of the database included, and then
    panics on closing the closed channel instead of returning. *)
Theorem Stop_again_panics (X : eth.Collaborators) (s : eth.Ethereum)
  (w : eth.World) :
  eth.shutdownChan s = eth.chan_open ->
  let s1 := snd (fst (eth.Stop X s w)) in
  let w1 := snd (eth.Stop X s w) in
  eth.shutdownChan s1 = eth.chan_closed
  /\ eth.Stop X s1 w1
     = (eth.panicked "close of closed channel", s1, snd (eth.Stop X s1 w1))
  /\ map fst (new_calls w1 (snd (eth.Stop X s1 w1)))
     = removelast (teardown_order s)
  /\ In eth.call_chainDb_Close
        (map fst (new_calls w1 (snd (eth.Stop X s1 w1))))
  /\ ~ In eth.call_close_shutdownChan
          (map fst (new_calls w1 (snd (eth.Stop X s1 w1)))).
Proof.
  intros Hopen s1 w1.
  destruct (Stop_open X s w Hopen) as (w' & HS & _ & _).
  subst s1 w1. rewrite HS. simpl.
  split; [reflexivity | ].
  unfold eth.Stop, eth.teardown, eth.record, teardown_order. simpl.
  destruct (eth.stopDbUpgrade s), (eth.lesServer s); simpl;
    (split; [reflexivity | ]);
    rewrite <- ?app_assoc, new_calls_app; simpl;
    (split; [reflexivity | ]);
    (split; [tauto | intuition discriminate]).
Qed.

Lemma Stop_again_panics_witness :
  let X := Sample.collaborators None 100 Sample.no_step in
  let s := Sample.node common.zero_Address [] None false in
  let once := eth.Stop X s (Sample.world 3) in
  fst (fst (eth.Stop X (snd (fst once)) (snd once)))
    = eth.panicked "close of closed channel".
Proof.
  intros X s once.
  destruct (Stop_again_panics X s (Sample.world 3) eq_refl)
    as (_ & Hpanic & _).
  subst once. rewrite Hpanic. reflexivity.
Defined.

(** X9.  The light server is started by [Start] and stopped by [Stop]
    exactly when one is attached; [AddLesServer] attaches it and leaves
    the reward address, the wallets and the shutdown channel as they
    were. *)
Theorem lesServer_start_stop (X : eth.Collaborators) (s : eth.Ethereum)
  (w : eth.World) :
  eth.shutdownChan s = eth.chan_open ->
  (In eth.call_lesServer_Start
      (map fst (new_calls w (snd (eth.Start s w))))
   <-> eth.lesServer s <> None)
  /\ (In eth.call_lesServer_Stop
         (map fst (new_calls w (snd (eth.Stop X s w))))
      <-> eth.lesServer s <> None)
  /\ (forall ls,
        eth.lesServer (eth.AddLesServer s ls) = Some ls
        /\ eth.Etherbase (eth.AddLesServer s ls) = eth.Etherbase s
        /\ eth.shutdownChan (eth.AddLesServer s ls) = eth.shutdownChan s
        /\ In eth.call_lesServer_Stop
              (map fst (new_calls w
                          (snd (eth.Stop X (eth.AddLesServer s ls) w))))).
Proof.
  intros Hopen. split; [ | split].
  - unfold eth.Start, eth.record.
    destruct (eth.lesServer s); simpl;
      rewrite <- ?app_assoc, new_calls_app; simpl;
      split; intros H; try congruence; intuition discriminate.
  - rewrite Stop_trace by assumption. unfold teardown_order.
    destruct (eth.stopDbUpgrade s), (eth.lesServer s); simpl;
      split; intros H; try congruence; intuition discriminate.
  - intros ls. split; [reflexivity | ]. split; [reflexivity | ].
    split; [reflexivity | ].
    rewrite Stop_trace by exact Hopen. unfold teardown_order. simpl.
    destruct (eth.stopDbUpgrade s); simpl; tauto.
Qed.

Lemma lesServer_start_stop_witness :
  let X := Sample.collaborators None 100 Sample.no_step in
  let s := Sample.node common.zero_Address [] None false in
  ~ In eth.call_lesServer_Stop
       (map fst (new_calls (Sample.world 3)
                   (snd (eth.Stop X s (Sample.world 3)))))
  /\ In eth.call_lesServer_Stop
        (map fst (new_calls (Sample.world 3)
                    (snd (eth.Stop X (eth.AddLesServer s eth.lesServerImpl)
                            (Sample.world 3))))).
Proof.
  intros X s.
  destruct (lesServer_start_stop X s (Sample.world 3) eq_refl)
    as (_ & Hstop & Hadd).
  split.
  - intros Hin. apply (proj1 Hstop Hin). reflexivity.
  - exact (proj2 (proj2 (proj2 (Hadd eth.lesServerImpl)))).
Defined.

(* ================================================================== *)
(** ** Further properties: reward address, peer budget, registry *)

(** X10.  Setting a non-zero reward address takes effect at once: the
    miner is told, [Etherbase] then answers with that address whatever the
    wallets hold, a later [StartMining] launches the miner with it, and a
    second setting replaces the first. *)
Theorem SetEtherbase_then_Etherbase (s : eth.Ethereum)
  (eb : common.Address) (w : eth.World) :
  eb <> common.zero_Address ->
  let s' := fst (eth.SetEtherbase s eb w) in
  eth.Etherbase s' = (eb, None)
  /\ new_calls w (snd (eth.SetEtherbase s eb w))
     = [(eth.call_miner_SetEtherbase eb, None)]
  /\ eth.accountManager s' = eth.accountManager s
  /\ (forall threads w1,
        fst (eth.StartMining s' threads w1) = None
        /\ new_calls w1 (snd (eth.StartMining s' threads w1))
           = [(eth.call_go_miner_Start eb threads, None)])
  /\ (forall eb2 w1,
        eb2 <> common.zero_Address ->
        eth.Etherbase (fst (eth.SetEtherbase s' eb2 w1)) = (eb2, None)).
Proof.
  intros Hne s'.
  assert (Hres : eth.Etherbase s' = (eb, None)).
  { subst s'. now rewrite Etherbase_configured. }
  split; [exact Hres | ].
  split; [apply new_calls_app | ].
  split; [reflexivity | ].
  split.
  - intros threads w1. rewrite StartMining_calls.
    unfold eth.StartMining. rewrite Hres. split; reflexivity.
  - intros eb2 w1 Hne2. now rewrite Etherbase_configured.
Qed.

Lemma SetEtherbase_then_Etherbase_witness :
  eth.Etherbase
    (fst (eth.SetEtherbase
            (Sample.node common.zero_Address [Sample.wallet [x02]]
               None false)
            (Sample.address x09) (Sample.world 3)))
  = (Sample.address x09, None).
Proof.
  assert (Hne : Sample.address x09 <> common.zero_Address)
    by (simpl; discriminate).
  exact (proj1 (SetEtherbase_then_Etherbase
                  (Sample.node common.zero_Address [Sample.wallet [x02]]
                     None false)
                  (Sample.address x09) (Sample.world 3) Hne)).
Defined.

(** X11.  [Etherbase] fails only in one way and looks at one account
    only.  An error is always the missing-address error, comes with the
    zero address, and means that no address is configured and the first
    wallet is absent or empty; wallets after the first and accounts after
    the first are never consulted, so an empty first wallet fails the
    resolution even when a later wallet holds accounts. *)
Theorem Etherbase_first_account_only (s : eth.Ethereum) :
  (forall e,
     snd (eth.Etherbase s) = Some e ->
     e = eth.etherbase_missing
     /\ fst (eth.Etherbase s) = common.zero_Address
     /\ eth.etherbase s = common.zero_Address
     /\ forall wallet0 wallets,
          accounts.Wallets (eth.accountManager s) = wallet0 :: wallets ->
          accounts.Accounts wallet0 = [])
  /\ (forall s2,
        eth.etherbase s2 = eth.etherbase s ->
        option_map (fun wallet0 => hd_error (accounts.Accounts wallet0))
          (hd_error (accounts.Wallets (eth.accountManager s2)))
        = option_map (fun wallet0 => hd_error (accounts.Accounts wallet0))
            (hd_error (accounts.Wallets (eth.accountManager s))) ->
        eth.Etherbase s2 = eth.Etherbase s)
  /\ (eth.etherbase s = common.zero_Address ->
      forall wallet0 wallets,
        accounts.Wallets (eth.accountManager s) = wallet0 :: wallets ->
        accounts.Accounts wallet0 = [] ->
        eth.Etherbase s = (common.zero_Address, Some eth.etherbase_missing)).
Proof.
  split; [ | split].
  - intros e He.
    destruct (common.Address_eq_dec (eth.etherbase s) common.zero_Address)
      as [Hz | Hnz].
    + rewrite Etherbase_unset in * by assumption.
      unfold first_wallet_account in *.
      destruct (accounts.Wallets (eth.accountManager s))
        as [ | wallet0 wallets].
      * simpl in *. inversion He. repeat split; try assumption.
        intros ? ? Habs. discriminate Habs.
      * destruct (accounts.Accounts wallet0) as [ | a0 accts] eqn:Ha;
          simpl in *; [ | discriminate He].
        inversion He. repeat split; try assumption.
        intros wallet1 wallets1 Heq. inversion Heq. subst. exact Ha.
    + rewrite Etherbase_configured in He by assumption. discriminate He.
  - intros s2 Heb Hhd. unfold eth.Etherbase, eth.AccountManager.
    rewrite Heb.
    destruct (common.Address_neqb (eth.etherbase s) common.zero_Address);
      [reflexivity | ].
    destruct (accounts.Wallets (eth.accountManager s2)) as [ | v2 r2],
             (accounts.Wallets (eth.accountManager s)) as [ | v1 r1];
      simpl in Hhd; try discriminate Hhd; [reflexivity | ].
    destruct (accounts.Accounts v2) as [ | a2 t2],
             (accounts.Accounts v1) as [ | a1 t1];
      simpl in Hhd; inversion Hhd; reflexivity.
  - intros Hz wallet0 wallets Hw Ha.
    rewrite Etherbase_unset by assumption.
    unfold first_wallet_account. now rewrite Hw, Ha.
Qed.

Lemma Etherbase_first_account_only_witness :
  eth.Etherbase (Sample.node common.zero_Address
                   [Sample.wallet []; Sample.wallet [x04]] None false)
  = (common.zero_Address, Some eth.etherbase_missing).
Proof.
  exact (proj2 (proj2 (Etherbase_first_account_only
                         (Sample.node common.zero_Address
                            [Sample.wallet []; Sample.wallet [x04]]
                            None false)))
           eq_refl (Sample.wallet []) [Sample.wallet [x04]]
           eq_refl eq_refl).
Defined.

(** X12.  With light serving enabled and non-negative settings, a larger
    light-peer reservation never gives full peers more room, the budget
    never falls below half the total (rounded down), it stays at that half
    once the reservation reaches the other half, and budget plus
    reservation never falls short of the total: past that point the two
    add up to more than the configured total. *)
Theorem maxPeers_reservation (c1 c2 : eth.Config.t) :
  let total := eth.Config.MaxPeers c1 in
  eth.Config.MaxPeers c2 = total ->
  0 <= total <= GoInt.int_max ->
  0 < eth.Config.LightServ c1 -> 0 < eth.Config.LightServ c2 ->
  0 <= eth.Config.LightPeers c1 <= eth.Config.LightPeers c2 ->
  eth.Config.LightPeers c2 <= GoInt.int_max ->
  eth.maxPeers c2 <= eth.maxPeers c1
  /\ total / 2 <= eth.maxPeers c2
  /\ (total - total / 2 <= eth.Config.LightPeers c2 ->
      eth.maxPeers c2 = total / 2)
  /\ total <= eth.maxPeers c2 + eth.Config.LightPeers c2
  /\ (total - total / 2 < eth.Config.LightPeers c2 ->
      total < eth.maxPeers c2 + eth.Config.LightPeers c2).
Proof.
  intros total Hsame Htotal Hs1 Hs2 Hl Hmax. subst total.
  destruct (maxPeers_light_plain c1) as [H1 Hq1]; try lia.
  destruct (maxPeers_light_plain c2) as [H2 Hq2]; try lia.
  rewrite H1, H2, Hsame. rewrite Hsame in Hq2. lia.
Qed.

Lemma maxPeers_reservation_witness :
  eth.maxPeers (Sample.config 50 40 25) <= eth.maxPeers (Sample.config 50 10 25)
  /\ 50 < eth.maxPeers (Sample.config 50 40 25) + 40.
Proof.
  assert (Hrange : 0 <= 50 <= GoInt.int_max /\ 40 <= GoInt.int_max)
    by (unfold GoInt.int_max; lia).
  destruct Hrange as [Htotal Hlight].
  destruct (maxPeers_reservation (Sample.config 50 10 25)
              (Sample.config 50 40 25) eq_refl Htotal
              ltac:(simpl; lia) ltac:(simpl; lia) ltac:(simpl; lia) Hlight)
    as (Hle & _ & _ & _ & Hover).
  split; [exact Hle | ]. apply Hover. simpl. lia.
Defined.

(** X13.  Of the entries [APIs] adds to those of [ethapi.GetAPIs], all
    thirteen carry version 1.0, an entry is public exactly when its
    service is not one of the private ones, the [miner] and [admin]
    namespaces hold private services only, and the [exp] namespace offers
    the same services with the same visibility, in the same order, as the
    [eth] namespace. *)
Theorem APIs_registry (GetAPIs : list eth.API) (s : eth.Ethereum) :
  let own := skipn (List.length GetAPIs) (eth.APIs GetAPIs s) in
  eth.APIs GetAPIs s = (GetAPIs ++ own)%list
  /\ List.length own = 13%nat
  /\ Forall (fun a => eth.Version a = "1.0") own
  /\ Forall (fun a => eth.Public a = negb (is_private (eth.Service a))) own
  /\ registered "exp" own = registered "eth" own
  /\ registered "eth" own
     = [(eth.NewPublicEthereumAPI s, true); (eth.NewPublicMinerAPI s, true);
        (eth.NewPublicDownloaderAPI, true);
        (eth.NewPublicFilterAPI false, true)]
  /\ registered "miner" own = [(eth.NewPrivateMinerAPI s, false)]
  /\ registered "admin" own = [(eth.NewPrivateAdminAPI s, false)].
Proof.
  intros own. subst own. unfold eth.APIs.
  rewrite skipn_app, skipn_all, Nat.sub_diag. simpl.
  repeat split; repeat constructor.
Qed.

(* ================================================================== *)
(** ** Further properties: request ids *)

Section RequestIds.

Context {C : Type} {T : rpc.ExpanseClient C}.
Variable json_Marshal : list rpc.Value -> list byte * option error.

Lemma Call_reqId (self : rpc.Xeth C) (method : string)
  (params : list rpc.Value) :
  rpc.reqId (fst (rpc.Call json_Marshal self method params))
  = match snd (json_Marshal params) with
    | Some _ => rpc.reqId self
    | None => (rpc.reqId self + 1) mod 2 ^ 32
    end.
Proof.
  unfold rpc.Call, GoInt.add_uint32.
  destruct (json_Marshal params) as [data [e | ]]; simpl; [reflexivity | ].
  destruct (rpc.Send (rpc.client self) _) as [c1 [e | ]]; simpl;
    [reflexivity | ].
  destruct (rpc.Recv c1) as [c2 [res [e | ]]]; simpl; [reflexivity | ].
  destruct res; reflexivity.
Qed.

Lemma call_all_reqId (requests : list (string * list rpc.Value)) :
  Forall (fun r => snd (json_Marshal (snd r)) = None) requests ->
  forall self : rpc.Xeth C,
    rpc.reqId (call_all json_Marshal self requests)
    = (rpc.reqId self + Z.of_nat (List.length requests)) mod 2 ^ 32
    \/ (requests = [] /\ call_all json_Marshal self requests = self).
Proof.
  induction 1 as [ | r requests Hr Hall IH]; intros self.
  - right. split; reflexivity.
  - left. unfold call_all in *. simpl fold_left.
    destruct (IH (fst (rpc.Call json_Marshal self (fst r) (snd r))))
      as [Hid | [Hnil Hsame]].
    + rewrite Hid, Call_reqId, Hr.
      rewrite Zplus_mod_idemp_l. f_equal.
      simpl List.length. lia.
    + subst requests. simpl. rewrite Call_reqId, Hr. reflexivity.
Qed.

End RequestIds.

(** X14.  A request id is used up by every [Call] that gets as far as
    sending, whether or not the send and the receive succeed, and by no
    [Call] whose parameters cannot be marshalled.  The ids stay within
    [uint32]: each is one more than the one before, and after 4294967295
    comes 0. *)
Theorem Call_request_ids (C : Type) (T : rpc.ExpanseClient C)
  (json_Marshal : list rpc.Value -> list byte * option error)
  (self : rpc.Xeth C) (method : string) (params : list rpc.Value) :
  0 <= rpc.reqId self < 2 ^ 32 ->
  let self' := fst (rpc.Call json_Marshal self method params) in
  0 <= rpc.reqId self' < 2 ^ 32
  /\ (snd (json_Marshal params) <> None -> self' = self)
  /\ (snd (json_Marshal params) = None ->
      rpc.reqId self'
      = rpc.Id (rpc.request_of self method (fst (json_Marshal params)))
      /\ (rpc.reqId self < 2 ^ 32 - 1 ->
          rpc.reqId self' = rpc.reqId self + 1)
      /\ (rpc.reqId self = 2 ^ 32 - 1 -> rpc.reqId self' = 0)).
Proof.
  intros Hrange self'.
  assert (Hid := Call_reqId json_Marshal self method params).
  fold self' in Hid.
  split; [ | split].
  - rewrite Hid. destruct (snd (json_Marshal params)); [exact Hrange | ].
    apply Z.mod_pos_bound. lia.
  - intros Hfail. subst self'. unfold rpc.Call.
    destruct (json_Marshal params) as [data [e | ]]; simpl in *;
      [reflexivity | congruence].
  - intros Hok. rewrite Hok in Hid. rewrite Hid.
    unfold rpc.request_of, GoInt.add_uint32. simpl.
    split; [reflexivity | ]. split.
    + intros Hlt. apply Z.mod_small. lia.
    + intros Hmax. rewrite Hmax.
      replace (2 ^ 32 - 1 + 1) with (2 ^ 32) by lia.
      apply Z_mod_same_full.
Qed.

Lemma Call_request_ids_witness :
  let link := {| Scripted.link_down := true; Scripted.sent := [];
                 Scripted.inbox := [] |} in
  let x := rpc.mkXeth link 4294967295 in
  rpc.reqId (fst (rpc.Call Scripted.marshal x "eth_blockNumber" [])) = 0
  /\ fst (rpc.Call Scripted.marshal x "eth_call" [rpc.Other "chan int"]) = x.
Proof.
  intros link x.
  assert (Hrange : 0 <= rpc.reqId x < 2 ^ 32) by (simpl; lia).
  split.
  - destruct (Call_request_ids Scripted.Client Scripted.client
                Scripted.marshal x "eth_blockNumber" [] Hrange)
      as (_ & _ & Hok).
    destruct (Hok eq_refl) as (_ & _ & Hwrap).
    apply Hwrap. reflexivity.
  - destruct (Call_request_ids Scripted.Client Scripted.client
                Scripted.marshal x "eth_call" [rpc.Other "chan int"] Hrange)
      as (_ & Hfail & _).
    apply Hfail. simpl. discriminate.
Defined.

(** X15.  A caller that issues [n] calls one after the other on a client
    made by [NewXeth], all with parameters that marshal, has used the ids
    1 to [n] (modulo 2^32): the id counter then stands at [n] modulo 2^32,
    whatever the transport answered in between. *)
Theorem call_all_request_ids (C : Type) (T : rpc.ExpanseClient C)
  (json_Marshal : list rpc.Value -> list byte * option error)
  (client : C) (requests : list (string * list rpc.Value)) :
  Forall (fun r => snd (json_Marshal (snd r)) = None) requests ->
  rpc.reqId (call_all json_Marshal (rpc.NewXeth client) requests)
  = Z.of_nat (List.length requests) mod 2 ^ 32
  /\ forall method params,
       snd (json_Marshal params) = None ->
       rpc.Id (rpc.request_of
                 (call_all json_Marshal (rpc.NewXeth client) requests)
                 method (fst (json_Marshal params)))
       = (Z.of_nat (List.length requests) + 1) mod 2 ^ 32.
Proof.
  intros Hall.
  assert (Hid : rpc.reqId (call_all json_Marshal (rpc.NewXeth client)
                             requests)
                = Z.of_nat (List.length requests) mod 2 ^ 32).
  { destruct (call_all_reqId json_Marshal requests Hall (rpc.NewXeth client))
      as [Hid | [Hnil Hsame]].
    - exact Hid.
    - subst requests. reflexivity. }
  split; [exact Hid | ].
  intros method params _. unfold rpc.request_of, GoInt.add_uint32. simpl.
  rewrite Hid. apply Zplus_mod_idemp_l.
Qed.

Lemma call_all_request_ids_witness :
  let link := {| Scripted.link_down := false; Scripted.sent := [];
                 Scripted.inbox := [(rpc.Map [], None)] |} in
  rpc.reqId (call_all Scripted.marshal (rpc.NewXeth link)
               [("eth_blockNumber", []); ("eth_gasPrice", []);
                ("net_version", [])])
  = 3.
Proof.
  intros link.
  exact (proj1 (call_all_request_ids Scripted.Client Scripted.client
                  Scripted.marshal link
                  [("eth_blockNumber", []); ("eth_gasPrice", []);
                   ("net_version", [])]
                  ltac:(repeat constructor))).
Defined.
